(** * Report snapshots of pandas-profiling: [SerializeReport]

    A shallow embedding of [src/pandas_profiling/serialize_report.py] and
    the properties of its [dumps] / [loads] / [dump] / [load] methods.

    Python values are a small dynamically typed universe ([pyval]);
    exceptions are values of [pyexn]; a method is a function from the
    world (the report object, the process-wide [config], the warning
    stream and the file system) to a result and a new world.  The
    collaborators that live outside the file (the [Config] class, the
    [Root] presentation class, [dill], [__version__], the operating
    system's verdict on a write) are the fields of the class
    [Externals]. *)

From Stdlib Require Import ZArith Lia Ascii String.
From Stdlib.Strings Require Import Byte.
From stdpp Require Import base option list strings gmap.

Set Warnings "-register-all".
#[local] Open Scope string_scope.

(** ** Python values and exceptions *)

(** [bytes] objects. *)
Abbreviation bytes := (list byte).

(** An exception instance: its class name and [str(e)]. *)
Record pyexn := PyExn { exn_class : string; exn_msg : string }.

Definition ValueError (msg : string) : pyexn := PyExn "ValueError" msg.
Definition TypeError (msg : string) : pyexn := PyExn "TypeError" msg.
(** [str(KeyError(k))] is [repr(k)]. *)
Definition KeyError (key : string) : pyexn := PyExn "KeyError" ("'" +:+ key +:+ "'").

(** The outcome of an expression that may raise. *)
Definition result (A : Type) : Type := pyexn + A.

#[global] Instance result_ret : MRet result := fun A a => inr a.
#[global] Instance result_bind : MBind result := fun A B f m =>
  match m with
  | inr a => f a
  | inl e => inl e
  end.

Section Values.
Variables Config Root : Type.

(** The values that travel through a snapshot.  A [dict] keeps its
    insertion order (iteration yields the keys in that order); its keys
    are strings, which is all the source ever looks up. *)
Inductive pyval : Type :=
| PyNone
| PyInt (n : Z)
| PyStr (s : string)
| PyList (l : list pyval)
| PyTuple (l : list pyval)
| PyDict (d : list (string * pyval))
| PyConfig (c : Config)
| PyRoot (r : Root).

(** [x is None] *)
Definition is_None (v : pyval) : bool :=
  match v with PyNone => true | _ => false end.

(** [isinstance(x, str)], [isinstance(x, dict)], [isinstance(x, Config)],
    [isinstance(x, Root)] *)
Definition isinstance_str (v : pyval) : bool :=
  match v with PyStr _ => true | _ => false end.
Definition isinstance_dict (v : pyval) : bool :=
  match v with PyDict _ => true | _ => false end.
Definition isinstance_Config (v : pyval) : bool :=
  match v with PyConfig _ => true | _ => false end.
Definition isinstance_Root (v : pyval) : bool :=
  match v with PyRoot _ => true | _ => false end.

(** [a == b] where [a] is [None] or a [str]: equal exactly to the same
    [None] or to a [str] with the same characters.  [loads] compares
    hashes only after the shape check, so its left operand is always
    one of these two; for any other left operand the comparison is
    reported as unequal. *)
Definition py_eq (a b : pyval) : bool :=
  match a, b with
  | PyNone, PyNone => true
  | PyStr x, PyStr y => String.eqb x y
  | _, _ => false
  end.

(** [v != s] for a [str] [s]: only a [str] with the same characters is
    equal to it. *)
Definition py_ne_str (v : pyval) (s : string) : bool :=
  match v with
  | PyStr x => negb (String.eqb x s)
  | _ => true
  end.

(** [d[key]] on a dict. *)
Fixpoint dict_get (d : list (string * pyval)) (key : string) : option pyval :=
  match d with
  | [] => None
  | (k, v) :: d' => if String.eqb k key then Some v else dict_get d' key
  end.
End Values.

Arguments PyNone {Config Root}.
Arguments PyInt {Config Root} n.
Arguments PyStr {Config Root} s.
Arguments PyList {Config Root} l.
Arguments PyTuple {Config Root} l.
Arguments PyDict {Config Root} d.
Arguments PyConfig {Config Root} c.
Arguments PyRoot {Config Root} r.
Arguments is_None {Config Root} v.
Arguments isinstance_str {Config Root} v.
Arguments isinstance_dict {Config Root} v.
Arguments isinstance_Config {Config Root} v.
Arguments isinstance_Root {Config Root} v.
Arguments py_eq {Config Root} a b.
Arguments py_ne_str {Config Root} v s.
Arguments dict_get {Config Root} d key.

(** What the operating system makes of opening a file for writing and
    writing to it: the write goes through; or the open is refused (no such
    directory, the path is a directory, no permission) and nothing
    changes; or the open succeeds and the write breaks off, leaving the
    file with what had been written. *)
Inductive write_outcome :=
| Written
| OpenFailed (e : pyexn)
| WriteFailed (e : pyexn) (partial : bytes).

(** ** The collaborators outside the file *)

(** [Config] offers [is_default] and [update]; [dill] offers [dumps] and
    [loads], both of which may raise; [__version__] is a string.  What
    iterating over, indexing or printing an instance of an external class
    does is left to the class, and whether a write to a path goes
    through is left to the operating system. *)
Class Externals (Config Root : Type) := {
  (** [config.is_default] *)
  is_default : Config -> bool;
  (** the state of [config] after [config.update(other)] *)
  update : Config -> Config -> Config;
  (** [pandas_profiling.version.__version__] *)
  __version__ : string;
  (** [dill.dumps] and [dill.loads] *)
  pickle_dumps : pyval Config Root -> result bytes;
  pickle_loads : bytes -> result (pyval Config Root);
  (** [iter(x)] run to its end, for [x] a [Config] or a [Root] *)
  iter_instance : pyval Config Root -> result (list (pyval Config Root));
  (** [x[key]], for [x] a [Config] or a [Root] *)
  getitem_instance : pyval Config Root -> string -> result (pyval Config Root);
  (** [str(x)] for [x] that is not a [str] *)
  str_other : pyval Config Root -> string;
  (** the operating system's answer to [open(path, "wb")] and the write
      of [data], given the files there are *)
  os_write_bytes : gmap string bytes -> string -> bytes -> write_outcome
}.

(** ** [pathlib], as far as [dump] and [load] use it *)

(** Pure POSIX paths as CPython 3.8's [pathlib] parses and prints them. *)
Module pathlib.

(** [s.rfind(c)]; [None] stands for [-1]. *)
Fixpoint rfind (c : ascii) (s : string) : option nat :=
  match s with
  | EmptyString => None
  | String a s' =>
      match rfind c s' with
      | Some i => Some (S i)
      | None => if Ascii.eqb a c then Some 0 else None
      end
  end.

(** [s.split(sep)] *)
Fixpoint split (sep : ascii) (s : string) : list string :=
  match s with
  | EmptyString => [EmptyString]
  | String a s' =>
      if Ascii.eqb a sep then EmptyString :: split sep s'
      else match split sep s' with
           | x :: xs => String a x :: xs
           | [] => [String a EmptyString]
           end
  end.

(** [s.lstrip(c)] *)
Fixpoint lstrip (c : ascii) (s : string) : string :=
  match s with
  | EmptyString => EmptyString
  | String a s' => if Ascii.eqb a c then lstrip c s' else s
  end.

(** [c in s] *)
Fixpoint contains (c : ascii) (s : string) : bool :=
  match s with
  | EmptyString => false
  | String a s' => Ascii.eqb a c || contains c s'
  end.

Definition sep : ascii := "/"%char.

(** A parsed path: the root ([""], ["/"] or ["//"]) and the components
    after it. *)
Record PurePath := mkPath { root : string; parts : list string }.

(** [_PosixFlavour.splitroot] *)
Definition splitroot (part : string) : string * string :=
  match part with
  | String a _ =>
      if Ascii.eqb a sep then
        let stripped_part := lstrip sep part in
        if (String.length part - String.length stripped_part =? 2)%nat
        then ("//", stripped_part)
        else ("/", stripped_part)
      else ("", part)
  | EmptyString => ("", part)
  end.

(** [Path(s)]: split off the root, then drop empty and ["."] components. *)
Definition Path (s : string) : PurePath :=
  let '(root, rel) := splitroot s in
  mkPath root
    (filter (fun x => negb (String.eqb x "") && negb (String.eqb x ".")) (split sep rel)).

(** [str(p)] *)
Definition str (p : PurePath) : string :=
  let formatted := root p +:+ String.concat "/" (parts p) in
  if String.eqb formatted "" then "." else formatted.

(** [p.name] *)
Definition name (p : PurePath) : string := List.last (parts p) "".

(** The suffix of a file name: from its last dot on, unless that dot
    is the first or the last character. *)
Definition suffix_of (name : string) : string :=
  match rfind "."%char name with
  | Some i =>
      if (0 <? i)%nat && (i <? String.length name - 1)%nat
      then String.substring i (String.length name - i) name
      else ""
  | None => ""
  end.

(** [p.suffix] *)
Definition suffix (p : PurePath) : string := suffix_of (name p).

(** The stem of a file name: the name without its suffix. *)
Definition stem_of (name : string) : string :=
  match rfind "."%char name with
  | Some i =>
      if (0 <? i)%nat && (i <? String.length name - 1)%nat
      then String.substring 0 i name
      else name
  | None => name
  end.

(** [p.stem] *)
Definition stem (p : PurePath) : string := stem_of (name p).

(** [p.with_suffix(suffix)] *)
Definition with_suffix (p : PurePath) (suffix : string) : result PurePath :=
  if contains sep suffix
  then inl (ValueError ("Invalid suffix '" +:+ suffix +:+ "'"))
  else if (negb (String.eqb suffix "") && negb (String.prefix "." suffix))
          || String.eqb suffix "."
  then inl (ValueError ("Invalid suffix '" +:+ suffix +:+ "'"))
  else
    let name := name p in
    if String.eqb name ""
    then inl (ValueError ("PosixPath('" +:+ str p +:+ "') has an empty name"))
    else
      let old_suffix := pathlib.suffix p in
      let name :=
        if String.eqb old_suffix ""
        then name +:+ suffix
        else String.substring 0 (String.length name - String.length old_suffix) name
             +:+ suffix in
      inr (mkPath (root p) (List.removelast (parts p) ++ [name])%list).

(** The path [with_suffix(".pp")] gives a path that has a file name: the
    same root and directories, the stem of the name, then [".pp"]. *)
Definition with_pp (p : PurePath) : PurePath :=
  mkPath (root p) (List.removelast (parts p) ++ [stem p +:+ ".pp"])%list.

(** A component as parsing leaves it: not empty, not ["."], free of
    separators; and a path as parsing leaves it. *)
Definition component (x : string) : Prop :=
  x <> "" /\ x <> "." /\ contains sep x = false.
Definition normal (p : PurePath) : Prop :=
  (root p = "" \/ root p = "/" \/ root p = "//") /\ Forall component (parts p).

(** A string that does not start with a separator. *)
Definition head_not_sep (x : string) : Prop :=
  match x with String a _ => Ascii.eqb a sep = false | EmptyString => True end.

End pathlib.

(** ** The state a method runs in *)

Section Model.
Context {Config Root DataFrame : Type} `{Ext : Externals Config Root}.

Abbreviation value := (pyval Config Root).

(** The attributes of a [SerializeReport] object.  [df] is only ever
    tested for [None]. *)
Record SerializeReport := mkReport {
  df_hash : value;
  df : option DataFrame;
  _df_hash : value;
  _report : value;
  _description_set : value;
  _title : value
}.

(** [self.df_hash], for the places where a local variable is also
    called [df_hash]. *)
Definition self_df_hash (s : SerializeReport) : value := df_hash s.

(** The class attributes: a report nothing has touched yet. *)
Definition new_report : SerializeReport :=
  mkReport PyNone None PyNone PyNone PyNone PyNone.

(** Everything a method can read or change: the object itself, the
    module-level [config], the warnings issued so far (oldest first), and
    the files on disk by path. *)
Record World := mkWorld {
  self : SerializeReport;
  config : Config;
  warnings : list string;
  fs : gmap string bytes
}.

(** A method body: it ends in a value or in an exception, and leaves a
    world behind either way. *)
Definition M (A : Type) : Type := World -> result A * World.

#[local] Instance M_ret : MRet M := fun A a w => (inr a, w).
#[local] Instance M_bind : MBind M := fun A B f m w =>
  match m w with
  | (inr a, w') => f a w'
  | (inl e, w') => (inl e, w')
  end.

Definition raise {A} (e : pyexn) : M A := fun w => (inl e, w).
Definition lift {A} (r : result A) : M A := fun w => (r, w).

(** [try: body / except Exception as e: handler e] *)
Definition try_except {A} (body : M A) (handler : pyexn -> M A) : M A :=
  fun w =>
    match body w with
    | (inl e, w') => handler e w'
    | (inr a, w') => (inr a, w')
    end.

Definition get_self : M SerializeReport := fun w => (inr (self w), w).
Definition get_config : M Config := fun w => (inr (config w), w).

Definition set_self (f : SerializeReport -> SerializeReport) : M unit :=
  fun w => (inr tt, mkWorld (f (self w)) (config w) (warnings w) (fs w)).

(** [self._description_set = v], [self._report = v], [self._df_hash = v],
    [self._title = v] *)
Definition set_description_set (v : value) : M unit :=
  set_self (fun s =>
    mkReport (df_hash s) (df s) (_df_hash s) (_report s) v (_title s)).
Definition set_report (v : value) : M unit :=
  set_self (fun s =>
    mkReport (df_hash s) (df s) (_df_hash s) v (_description_set s) (_title s)).
Definition set_df_hash (v : value) : M unit :=
  set_self (fun s =>
    mkReport (df_hash s) (df s) v (_report s) (_description_set s) (_title s)).
Definition set_title (v : value) : M unit :=
  set_self (fun s =>
    mkReport (df_hash s) (df s) (_df_hash s) (_report s) (_description_set s) v).

(** [config.update(other)] *)
Definition config_update (other : Config) : M unit :=
  fun w => (inr tt, mkWorld (self w) (update (config w) other) (warnings w) (fs w)).

(** [warnings.warn(msg)] *)
Definition warn (msg : string) : M unit :=
  fun w => (inr tt, mkWorld (self w) (config w) (warnings w ++ [msg])%list (fs w)).

(** [path.write_bytes(data)] and [path.read_bytes()] on the path string.
    A write that is refused raises the operating system's error. *)
Definition write_bytes (path : string) (data : bytes) : M unit :=
  fun w =>
    match os_write_bytes (fs w) path data with
    | Written =>
        (inr tt, mkWorld (self w) (config w) (warnings w) (<[path := data]> (fs w)))
    | OpenFailed e => (inl e, w)
    | WriteFailed e partial =>
        (inl e, mkWorld (self w) (config w) (warnings w) (<[path := partial]> (fs w)))
    end.
Definition read_bytes (path : string) : M bytes :=
  fun w =>
    match fs w !! path with
    | Some data => (inr data, w)
    | None =>
        (inl (PyExn "FileNotFoundError"
                ("[Errno 2] No such file or directory: '" +:+ path +:+ "'")), w)
    end.

(** ** Pieces of Python the methods use *)

(** [all(t)] for a tuple of booleans. *)
Definition py_all (t : list bool) : bool := forallb id t.

(** [str(v)] inside an f-string. *)
Definition py_str (v : value) : string :=
  match v with
  | PyStr s => s
  | _ => str_other v
  end.

(** The values [iter(v)] yields. *)
Definition py_iter (v : value) : result (list value) :=
  match v with
  | PyList l | PyTuple l => inr l
  | PyStr s => inr (map (fun a => PyStr (String a EmptyString)) (String.list_ascii_of_string s))
  | PyDict d => inr (map (fun kv => PyStr (fst kv)) d)
  | PyNone => inl (TypeError "cannot unpack non-iterable NoneType object")
  | PyInt _ => inl (TypeError "cannot unpack non-iterable int object")
  | PyConfig _ | PyRoot _ => iter_instance v
  end.

Definition digit (n : nat) : string :=
  match n with
  | 0 => "0" | 1 => "1" | 2 => "2" | 3 => "3" | _ => "4"
  end.

(** [(a, b, c, d, e) = v] *)
Definition unpack5 (v : value) : result (value * value * value * value * value) :=
  l ← py_iter v;
  match l with
  | [a; b; c; d; e] => inr (a, b, c, d, e)
  | _ =>
      if (List.length l <? 5)%nat
      then inl (ValueError ("not enough values to unpack (expected 5, got "
                            +:+ digit (List.length l) +:+ ")"))
      else inl (ValueError "too many values to unpack (expected 5)")
  end.

(** [v[key]] for a string [key]. *)
Definition py_getitem (v : value) (key : string) : result value :=
  match v with
  | PyDict d =>
      match dict_get d key with
      | Some x => inr x
      | None => inl (KeyError key)
      end
  | PyNone => inl (TypeError "'NoneType' object is not subscriptable")
  | PyInt _ => inl (TypeError "'int' object is not subscriptable")
  | PyStr _ => inl (TypeError "string indices must be integers")
  | PyList _ => inl (TypeError "list indices must be integers or slices, not str")
  | PyTuple _ => inl (TypeError "tuple indices must be integers or slices, not str")
  | PyConfig _ | PyRoot _ => getitem_instance v key
  end.

(** [d["package"]["pandas_profiling_version"]] *)
Definition package_version (d : value) : result value :=
  p ← py_getitem d "package";
  py_getitem p "pandas_profiling_version".

(** ** [SerializeReport.dumps] *)

(** The list [dumps] hands to the codec. *)
Definition snapshot (s : SerializeReport) (c : Config) : value :=
  PyList [df_hash s; PyConfig c; _description_set s; _report s; _title s].

Definition dumps : M bytes :=
  s ← get_self;
  c ← get_config;
  lift (pickle_dumps (snapshot s c)).

(** ** [SerializeReport.loads] *)

Definition msg_decode (e : pyexn) : string :=
  "Failed to load data: " +:+ exn_msg e.
Definition msg_incompatible : string :=
  "Failed to load data: file may be damaged or from an incompatible version".
Definition msg_description_set : string :=
  "The description set of current ProfileReport is not None. It won't be loaded.".
Definition msg_report : string :=
  "The report of current ProfileReport is not None. It won't be loaded.".
Definition msg_version (loaded : value) : string :=
  "The package version specified in the loaded data is not equal to the version installed. "
  +:+ "Currently running on pandas-profiling " +:+ __version__
  +:+ " , while loaded data is generated by pandas_profiling, "
  +:+ py_str loaded +:+ ".".
Definition msg_mismatch : string :=
  "DataFrame does not match with the current ProfileReport.".

(** The tuple handed to [all] at lines 64-73. *)
Definition shape_checks (df_hash loaded_config loaded_description_set
                         loaded_report loaded_title : value) : list bool :=
  [ is_None df_hash || isinstance_str df_hash;
    is_None loaded_title || isinstance_str loaded_title;
    isinstance_Config loaded_config;
    is_None loaded_description_set || isinstance_dict loaded_description_set;
    is_None loaded_report || isinstance_Root loaded_report ].

(** [config.update(loaded_config)]; [Config.update] refuses anything
    that is not a [Config]. *)
Definition config_update_value (loaded_config : value) : M unit :=
  match loaded_config with
  | PyConfig c => config_update c
  | _ => raise (ValueError "Can only update config from a config object")
  end.

(** The body of the [try] at lines 53-60: decode, then unpack. *)
Definition decode_snapshot (data : bytes)
  : result (value * value * value * value * value) :=
  v ← pickle_loads data; unpack5 v.

(** The test at lines 77-79. *)
Definition compatible (df_hash : value) (s : SerializeReport) (c : Config) : bool :=
  py_eq df_hash (self_df_hash s) || (is_default c && bool_decide (df s = None)).

Definition loads (data : bytes) (ignore_config : bool) : M unit :=
  '(df_hash, loaded_config, loaded_description_set, loaded_report, loaded_title) ←
    try_except
      (lift (decode_snapshot data))
      (fun e => raise (ValueError (msg_decode e)));
  if negb (py_all (shape_checks df_hash loaded_config loaded_description_set
                                loaded_report loaded_title))
  then raise (ValueError msg_incompatible)
  else
    s ← get_self;
    c ← get_config;
    if compatible df_hash s c
    then
      (if is_None (_description_set s)
       then set_description_set loaded_description_set
       else warn msg_description_set);;
      s ← get_self;
      (if is_None (_report s)
       then set_report loaded_report
       else warn msg_report);;
      config_update_value loaded_config;;
      differs ←
        (if negb (is_None loaded_description_set)
         then v ← lift (package_version loaded_description_set);
              mret (py_ne_str v __version__)
         else mret false);
      (if differs : bool
       then v ← lift (package_version loaded_description_set);
            warn (msg_version v)
       else mret tt);;
      set_df_hash df_hash;;
      set_title loaded_title
    else raise (ValueError msg_mismatch).

(** ** [SerializeReport.dump] and [SerializeReport.load] *)

(** A path argument: a [Path] object or a string. *)
Inductive path_arg :=
| ArgPath (p : pathlib.PurePath)
| ArgStr (s : string).

(** [if not isinstance(f, Path): f = Path(str(f))] *)
Definition as_Path (f : path_arg) : pathlib.PurePath :=
  match f with
  | ArgPath p => p
  | ArgStr s => pathlib.Path s
  end.

Definition dump (output_file : path_arg) : M unit :=
  let output_file := as_Path output_file in
  output_file ← lift (pathlib.with_suffix output_file ".pp");
  data ← dumps;
  write_bytes (pathlib.str output_file) data.

Definition load (load_file : path_arg) (ignore_config : bool) : M unit :=
  let load_file := as_Path load_file in
  data ← read_bytes (pathlib.str load_file);
  loads data ignore_config.

(** ** Vocabulary of the properties *)

(** The attributes of a report have the shapes of the data model: the
    hash and the title are [None] or strings, the description set is
    [None] or a mapping, the report is [None] or a [Root]. *)
Definition well_shaped (s : SerializeReport) : Prop :=
  (is_None (df_hash s) || isinstance_str (df_hash s)) = true
  /\ (is_None (_title s) || isinstance_str (_title s)) = true
  /\ (is_None (_description_set s) || isinstance_dict (_description_set s)) = true
  /\ (is_None (_report s) || isinstance_Root (_report s)) = true.

(** A description set that is absent, or carries the version of the
    package that computed it. *)
Definition version_marked (d : value) : Prop :=
  d = PyNone \/ exists v, package_version d = inr v.

(** A report used purely as a load destination: default configuration,
    no dataset bound, nothing computed yet. *)
Definition fresh_target (w : World) : Prop :=
  is_default (config w) = true
  /\ df (self w) = None
  /\ _description_set (self w) = PyNone
  /\ _report (self w) = PyNone.

(** What a field holds after the merge, and the warning the merge gives
    when it keeps the current value. *)
Definition merge_field (current loaded : value) : value :=
  if is_None current then loaded else current.
Definition skip_warning (current : value) (msg : string) : list string :=
  if is_None current then [] else [msg].

(** The advisory for a package version [v] found in loaded data. *)
Definition version_warning (v : value) : list string :=
  if py_ne_str v __version__ then [msg_version v] else [].

(** The world once the fields and the configuration are merged, before
    the version is looked at. *)
Definition merged_world (w : World) (lc : Config) (ds r : value) : World :=
  let s := self w in
  mkWorld
    (mkReport (df_hash s) (df s) (_df_hash s)
       (merge_field (_report s) r) (merge_field (_description_set s) ds) (_title s))
    (update (config w) lc)
    (warnings w ++ skip_warning (_description_set s) msg_description_set
                ++ skip_warning (_report s) msg_report)
    (fs w).

(** The world a completed load leaves: identity set, advisory issued. *)
Definition loaded_world (w : World) (lc : Config) (h ds r t : value)
    (advisory : list string) : World :=
  let w1 := merged_world w lc ds r in
  let s := self w1 in
  mkWorld
    (mkReport (df_hash s) (df s) h (_report s) (_description_set s) t)
    (config w1) (warnings w1 ++ advisory) (fs w1).

(** The version advisory of a loaded description set, or the exception
    its lookup raises. *)
Definition advisory_of (ds : value) : result (list string) :=
  if is_None ds then inr []
  else v ← package_version ds; inr (version_warning v).
End Model.

(** ** A concrete set of collaborators

    A small stand-in for the code outside the file, on which the methods
    can be run: a [Config] is a list of settings and is the default
    configuration when the list is empty, [update] takes over the other
    object's settings, a [Root] is its name, the codec is a
    tag-and-length format over bytes, and a file can be written in the
    directories there are. *)
Module Demo.

Definition Config : Type := list (string * string).
Definition Root : Type := string.
Definition DataFrame : Type := unit.

Abbreviation value := (pyval Config Root).

(** Natural numbers in unary: [n] bytes [1], then a [0]. *)
Definition enc_nat (n : nat) : bytes := (repeat x31 n ++ [x30])%list.
Definition enc_str (s : string) : bytes :=
  (enc_nat (String.length s) ++ list_byte_of_string s)%list.

Fixpoint encode (v : value) : bytes :=
  match v with
  | PyNone => [x4e]
  | PyInt n =>
      x49 :: (if (n <? 0)%Z then x2d else x2b) :: enc_nat (Z.abs_nat n)
  | PyStr s => x53 :: enc_str s
  | PyList l => x4c :: enc_nat (List.length l) ++ concat (map encode l)
  | PyTuple l => x54 :: enc_nat (List.length l) ++ concat (map encode l)
  | PyDict d =>
      x44 :: enc_nat (List.length d)
          ++ concat (map (fun kv => enc_str (fst kv) ++ encode (snd kv)) d)
  | PyConfig c =>
      x43 :: enc_nat (List.length c)
          ++ concat (map (fun kv => enc_str (fst kv) ++ enc_str (snd kv)) c)
  | PyRoot r => x52 :: enc_str r
  end%list.

Fixpoint dec_nat (b : bytes) : option (nat * bytes) :=
  match b with
  | x31 :: b' => '(n, r) ← dec_nat b'; Some (S n, r)
  | x30 :: b' => Some (0, b')
  | _ => None
  end.

Definition dec_str (b : bytes) : option (string * bytes) :=
  '(n, r) ← dec_nat b;
  if (n <=? List.length r)%nat
  then Some (string_of_list_byte (take n r), drop n r)
  else None.

(** [n] items, each read by [item]. *)
Fixpoint dec_many {A} (item : bytes -> option (A * bytes)) (n : nat) (b : bytes)
  : option (list A * bytes) :=
  match n with
  | 0 => Some ([], b)
  | S n' => '(x, r) ← item b; '(xs, r') ← dec_many item n' r; Some (x :: xs, r')
  end.

Definition dec_pair {A B} (fst_item : bytes -> option (A * bytes))
    (snd_item : bytes -> option (B * bytes)) (b : bytes) : option (A * B * bytes) :=
  '(x, r) ← fst_item b; '(y, r') ← snd_item r; Some (x, y, r').

Fixpoint decode (fuel : nat) (b : bytes) : option (value * bytes) :=
  match fuel with
  | 0 => None
  | S fuel' =>
      match b with
      | x4e :: r => Some (PyNone, r)
      | x49 :: x2b :: r => '(n, r') ← dec_nat r; Some (PyInt (Z.of_nat n), r')
      | x49 :: x2d :: r => '(n, r') ← dec_nat r; Some (PyInt (- Z.of_nat n), r')
      | x53 :: r => '(s, r') ← dec_str r; Some (PyStr s, r')
      | x4c :: r =>
          '(n, r') ← dec_nat r;
          '(l, r'') ← dec_many (decode fuel') n r'; Some (PyList l, r'')
      | x54 :: r =>
          '(n, r') ← dec_nat r;
          '(l, r'') ← dec_many (decode fuel') n r'; Some (PyTuple l, r'')
      | x44 :: r =>
          '(n, r') ← dec_nat r;
          '(d, r'') ← dec_many (dec_pair dec_str (decode fuel')) n r';
          Some (PyDict d, r'')
      | x43 :: r =>
          '(n, r') ← dec_nat r;
          '(c, r'') ← dec_many (dec_pair dec_str dec_str) n r';
          Some (PyConfig c, r'')
      | x52 :: r => '(s, r') ← dec_str r; Some (PyRoot s, r')
      | _ => None
      end
  end.

Definition loads_bytes (b : bytes) : result value :=
  match decode (S (List.length b)) b with
  | Some (v, []) => inr v
  | _ => inl (PyExn "UnpicklingError" "invalid load key")
  end.

Definition class_name (v : value) : string :=
  match v with
  | PyConfig _ => "Config"
  | PyRoot _ => "Root"
  | _ => "object"
  end.

(** The directories there are: the working directory and [out]. *)
Definition directories : list string := [""; "out"].

(** The directory part of a path string. *)
Definition parent (path : string) : string :=
  match pathlib.rfind "/"%char path with
  | Some i => String.substring 0 i path
  | None => ""
  end.

(** Writes go through in the directories there are. *)
Definition write_verdict (files : gmap string bytes) (path : string) (data : bytes)
  : write_outcome :=
  if bool_decide (path ∈ directories)
  then OpenFailed (PyExn "IsADirectoryError"
                     ("[Errno 21] Is a directory: '" +:+ path +:+ "'"))
  else if bool_decide (parent path ∈ directories)
  then Written
  else OpenFailed (PyExn "FileNotFoundError"
                     ("[Errno 2] No such file or directory: '" +:+ path +:+ "'")).

#[export] Instance externals : Externals Config Root := {|
  is_default c := bool_decide (c = []);
  update cur other := other;
  __version__ := "2.8.0";
  pickle_dumps v := inr (encode v);
  pickle_loads := loads_bytes;
  iter_instance v :=
    inl (TypeError ("cannot unpack non-iterable " +:+ class_name v +:+ " object"));
  getitem_instance v key :=
    inl (TypeError ("'" +:+ class_name v +:+ "' object is not subscriptable"));
  str_other v := "<" +:+ class_name v +:+ ">";
  os_write_bytes := write_verdict
|}.

Abbreviation report := (@SerializeReport Config Root DataFrame).
Abbreviation world := (@World Config Root DataFrame).

(** A report nobody has computed anything for, in a fresh process. *)
Definition fresh_world : world := mkWorld new_report [] [] ∅.

(** Description sets stamped by the running version and by an older one,
    and the settings of a configured session. *)
Definition stamped (version : string) : value :=
  PyDict [("table", PyDict [("n", PyInt 3)]);
          ("package", PyDict [("pandas_profiling_version", PyStr version)])].
Definition custom_config : Config := [("samples", "5")].

(** A computed report over a dataset with hash ["abc"], in a configured
    session, and the bytes [dumps] gives for it. *)
Definition computed_report : report :=
  mkReport (PyStr "abc") (Some tt) (PyStr "abc") (PyRoot "Overview")
    (stamped "2.8.0") (PyStr "Title").
Definition computed_world : world := mkWorld computed_report custom_config [] ∅.
Definition computed_bytes : bytes :=
  encode (snapshot computed_report custom_config).

(** A report whose description set is a mapping without the package
    entry, and its bytes. *)
Definition unmarked_report : report :=
  mkReport (PyStr "abc") (Some tt) (PyStr "abc") PyNone (PyDict []) (PyStr "Title").
Definition unmarked_world : world := mkWorld unmarked_report custom_config [] ∅.
Definition unmarked_bytes : bytes :=
  encode (snapshot unmarked_report custom_config).

(** A snapshot of another dataset, ["xyz"]. *)
Definition other_bytes : bytes :=
  encode (PyList [PyStr "xyz"; PyConfig []; PyNone; PyNone; PyNone]).

(** A list of five values whose title is a number. *)
Definition misshapen_bytes : bytes :=
  encode (PyList [PyStr "abc"; PyConfig []; PyNone; PyNone; PyInt 3]).

(** Bytes the codec cannot read. *)
Definition garbage_bytes : bytes := [x00; xff].

(** A snapshot written by an older version of the package. *)
Definition older_bytes : bytes :=
  encode (PyList [PyStr "abc"; PyConfig custom_config; stamped "1.0.0";
                  PyRoot "Old overview"; PyStr "Old title"]).

(** A snapshot with nothing computed. *)
Definition empty_bytes : bytes :=
  encode (PyList [PyStr "abc"; PyConfig []; PyNone; PyNone; PyStr "Title"]).

(** A target that has its description set (from an older version) but
    no report yet. *)
Definition described_world : world :=
  mkWorld
    (mkReport (PyStr "abc") (Some tt) (PyStr "abc") PyNone (stamped "1.0.0") PyNone)
    custom_config [] ∅.

(** A target bound to the dataset ["abc"] with nothing computed yet. *)
Definition pending_world : world :=
  mkWorld (mkReport (PyStr "abc") (Some tt) PyNone PyNone PyNone PyNone)
    custom_config [] ∅.

(** A snapshot whose package entry is not a mapping. *)
Definition unversioned_bytes : bytes :=
  encode (PyList [PyStr "abc"; PyConfig []; PyDict [("package", PyStr "2.8.0")];
                  PyNone; PyNone]).

(** A list of four values, and a string of five characters. *)
Definition short_bytes : bytes :=
  encode (PyList [PyStr "abc"; PyConfig []; PyNone; PyNone]).
Definition text_bytes : bytes := encode (PyStr "hello").

(** A fresh process that sees the files left by dumping the computed
    report to ["out/report.json"]. *)
Definition receiving_world : world :=
  mkWorld new_report [] []
    (fs (snd (dump (ArgStr "out/report.json") computed_world))).

End Demo.


(** * Properties *)

(** ** Paths *)

Module pathlib_facts.
Import pathlib.
#[local] Arguments String.append !_ _ / : simpl nomatch.
#[local] Open Scope nat_scope.

Lemma length_substring s : forall i n,
  i + n <= String.length s -> String.length (String.substring i n s) = n.
Proof.
  induction s as [|a s IH]; intros i n Hle; simpl in *.
  - destruct i, n; simpl; lia.
  - destruct i as [|i]; [destruct n as [|n]|]; simpl; [reflexivity| |].
    + f_equal. apply IH. lia.
    + apply IH. lia.
Qed.

Lemma substring_all s : String.substring 0 (String.length s) s = s.
Proof. induction s; simpl; [reflexivity | now f_equal]. Qed.

Lemma substring_split s : forall i,
  i <= String.length s ->
  String.substring 0 i s +:+ String.substring i (String.length s - i) s = s.
Proof.
  induction s as [|a s IH]; intros i Hle; simpl in *.
  - destruct i; reflexivity.
  - destruct i as [|i]; simpl.
    + now rewrite substring_all.
    + f_equal. apply IH. lia.
Qed.

Lemma rfind_lt c s i : rfind c s = Some i -> i < String.length s.
Proof.
  revert i. induction s as [|a s IH]; intros i; simpl; [discriminate|].
  destruct (rfind c s) as [j|].
  - intros [= <-]. specialize (IH j eq_refl). lia.
  - destruct (Ascii.eqb a c); [intros [= <-]; lia | discriminate].
Qed.

Lemma rfind_app c s t :
  rfind c (s +:+ t)
  = match rfind c t with
    | Some i => Some (String.length s + i)
    | None => rfind c s
    end.
Proof.
  induction s as [|a s IH]; simpl.
  - now destruct (rfind c t).
  - rewrite IH. now destruct (rfind c t).
Qed.

Lemma length_app s t :
  String.length (s +:+ t) = String.length s + String.length t.
Proof. induction s; simpl; [reflexivity | now rewrite IHs]. Qed.

Lemma substring_app_skip s t n :
  String.substring (String.length s) n (s +:+ t) = String.substring 0 n t.
Proof. induction s; simpl; [reflexivity | exact IHs]. Qed.

Lemma stem_suffix n : stem_of n +:+ suffix_of n = n.
Proof.
  unfold stem_of, suffix_of. destruct (rfind "." n) as [i|] eqn:E.
  - destruct ((0 <? i) && (i <? String.length n - 1)).
    + apply substring_split. apply rfind_lt in E. lia.
    + clear. induction n; simpl; [reflexivity | now f_equal].
  - clear. induction n; simpl; [reflexivity | now f_equal].
Qed.

Lemma stem_nonempty n : n <> "" -> stem_of n <> "".
Proof.
  intros Hn. unfold stem_of. destruct (rfind "." n) as [i|] eqn:E; [|exact Hn].
  destruct ((0 <? i) && (i <? String.length n - 1)) eqn:C; [|exact Hn].
  apply andb_true_iff in C as [C1 C2].
  apply Nat.ltb_lt in C1. apply Nat.ltb_lt in C2.
  intros Hs. apply (f_equal String.length) in Hs.
  rewrite length_substring in Hs by lia. simpl in Hs. lia.
Qed.

Lemma suffix_of_pp s : s <> "" -> suffix_of (s +:+ ".pp") = ".pp".
Proof.
  intros Hs. unfold suffix_of. rewrite rfind_app. simpl.
  rewrite length_app. simpl.
  assert (0 < String.length s) by (destruct s; [congruence | simpl; lia]).
  replace (0 <? String.length s + 0) with true
    by (symmetry; apply Nat.ltb_lt; lia).
  replace (String.length s + 0 <? String.length s + 3 - 1) with true
    by (symmetry; apply Nat.ltb_lt; lia).
  simpl. rewrite Nat.add_0_r.
  replace (String.length s + 3 - String.length s) with 3 by lia.
  now rewrite substring_app_skip.
Qed.

(** The name [with_suffix] gives a file: its stem, then the suffix. *)
Lemma with_suffix_pp p :
  name p <> "" ->
  with_suffix p ".pp"
  = inr (mkPath (root p) (List.removelast (parts p) ++ [stem p +:+ ".pp"])).
Proof.
  intros Hn. unfold with_suffix. simpl.
  destruct (String.eqb (name p) "") eqn:E.
  { apply String.eqb_eq in E. contradiction. }
  unfold suffix, stem, stem_of, suffix_of.
  destruct (rfind "." (name p)) as [i|] eqn:Ei; simpl; [|reflexivity].
  destruct ((0 <? i) && (i <? String.length (name p) - 1)) eqn:C;
    simpl; [|reflexivity].
  apply andb_true_iff in C as [C1 C2].
  apply Nat.ltb_lt in C1. apply Nat.ltb_lt in C2.
  destruct (String.eqb (String.substring i _ _) "") eqn:E2.
  { apply String.eqb_eq in E2. apply (f_equal String.length) in E2.
    rewrite length_substring in E2 by lia. simpl in E2. lia. }
  rewrite length_substring by lia.
  replace (String.length (name p) - (String.length (name p) - i)) with i by lia.
  reflexivity.
Qed.

Lemma name_with_name r l n : name (mkPath r (List.removelast l ++ [n])) = n.
Proof. unfold name. simpl. apply List.last_last. Qed.


Lemma app_assoc s t u : (s +:+ t) +:+ u = s +:+ (t +:+ u).
Proof. induction s as [|c s IH]; simpl; [reflexivity | now rewrite IH]. Qed.

Lemma app_nonempty s a : a <> "" -> s +:+ a <> "".
Proof. destruct s; simpl; [auto | discriminate]. Qed.



Lemma name_nonempty_parts p :
  name p <> "" -> parts p = (List.removelast (parts p) ++ [name p])%list.
Proof.
  unfold name. intros Hn. apply List.app_removelast_last.
  intros E. rewrite E in Hn. now apply Hn.
Qed.

(** A path that already has the suffix is what [with_suffix] returns. *)
Lemma with_suffix_fixed p : suffix p = ".pp" -> with_suffix p ".pp" = inr p.
Proof.
  intros Hs.
  assert (Hn : name p <> "").
  { intros E. unfold suffix in Hs. rewrite E in Hs. discriminate. }
  rewrite (with_suffix_pp _ Hn). f_equal. destruct p as [r l]. f_equal.
  simpl. rewrite (name_nonempty_parts (mkPath r l) Hn) at 3. simpl.
  do 2 f_equal. unfold stem, suffix in *. rewrite <- Hs. apply stem_suffix.
Qed.


(** *** Parsing and printing *)

Lemma split_nosep s : Forall (fun x => contains sep x = false) (split sep s).
Proof.
  induction s as [|a s IH]; simpl.
  - constructor; [reflexivity | constructor].
  - destruct (Ascii.eqb a sep) eqn:E.
    + constructor; [reflexivity | exact IH].
    + destruct (split sep s) as [|x xs]; inversion IH; subst.
      * constructor; [simpl; now rewrite E | constructor].
      * constructor; [simpl; now rewrite E | assumption].
Qed.

Lemma split_whole x : contains sep x = false -> split sep x = [x].
Proof.
  induction x as [|a x IH]; simpl; [reflexivity|].
  intros H. apply orb_false_iff in H as [Ha Hx]. rewrite Ha, (IH Hx). reflexivity.
Qed.

Lemma split_app x rest :
  contains sep x = false ->
  split sep (x +:+ String sep rest) = x :: split sep rest.
Proof.
  induction x as [|a x IH]; simpl; intros H.
  - reflexivity.
  - apply orb_false_iff in H as [Ha Hx]. rewrite Ha, (IH Hx). reflexivity.
Qed.

Lemma split_concat l :
  l <> [] -> Forall (fun x => contains sep x = false) l ->
  split sep (String.concat "/" l) = l.
Proof.
  induction l as [|x l IH]; [congruence|]. intros _ H. inversion H; subst.
  destruct l as [|y l].
  - simpl. now apply split_whole.
  - change (String.concat "/" (x :: y :: l))
      with (x +:+ String sep (String.concat "/" (y :: l))).
    rewrite split_app by assumption. f_equal. apply IH; [discriminate | assumption].
Qed.

Lemma filter_components l :
  Forall component l ->
  filter (fun x => negb (String.eqb x "") && negb (String.eqb x ".")) l = l.
Proof.
  induction 1 as [|x l [H1 [H2 _]] _ IH]; [reflexivity|].
  rewrite filter_cons.
  destruct (decide _) as [_|Hn]; [now rewrite IH|].
  exfalso. apply Hn. apply Is_true_true. apply andb_true_iff.
  split; apply negb_true_iff; now apply String.eqb_neq.
Qed.

Lemma Path_normal s : normal (Path s).
Proof.
  unfold Path, normal. destruct (splitroot s) as [r rel] eqn:E. simpl. split.
  - unfold splitroot in E. destruct s as [|a s]; [injection E as <- _; auto|].
    destruct (Ascii.eqb a sep); [|injection E as <- _; auto].
    destruct (_ =? 2); injection E as <- _; auto.
  - apply Forall_forall. intros x Hx.
    apply list_elem_of_filter in Hx as [Hp Hin].
    apply Is_true_true in Hp. apply andb_true_iff in Hp as [H1 H2].
    apply negb_true_iff in H1, H2. apply String.eqb_neq in H1, H2.
    repeat split; try assumption.
    pose proof (split_nosep rel) as Hall. rewrite Forall_forall in Hall.
    now apply Hall.
Qed.

Lemma concat_head l :
  Forall component l ->
  match String.concat "/" l with
  | String a _ => Ascii.eqb a sep = false
  | EmptyString => l = []
  end.
Proof.
  intros H. destruct l as [|x l]; [reflexivity|]. inversion H as [|? ? [Hx [_ Hc]] _]; subst.
  destruct x as [|a x]; [congruence|]. simpl in Hc. apply orb_false_iff in Hc as [Ha _].
  destruct l; simpl; exact Ha.
Qed.

Lemma parse_rel l :
  Forall component l ->
  filter (fun x => negb (String.eqb x "") && negb (String.eqb x "."))
    (split sep (String.concat "/" l)) = l.
Proof.
  intros H. destruct l as [|x l]; [reflexivity|].
  rewrite split_concat; [now apply filter_components | discriminate |].
  eapply Forall_impl; [exact H|]. now intros y (_ & _ & Hy).
Qed.

Lemma splitroot_0 rel : head_not_sep rel -> splitroot rel = ("", rel).
Proof. destruct rel as [|a rel]; simpl; [reflexivity | now intros ->]. Qed.

Lemma lstrip_head rel : head_not_sep rel -> lstrip sep rel = rel.
Proof. destruct rel as [|a rel]; simpl; [reflexivity | now intros ->]. Qed.

Lemma splitroot_1 rel : head_not_sep rel -> splitroot (String sep rel) = ("/", rel).
Proof.
  intros H. unfold splitroot. rewrite ?Ascii.eqb_refl.
  cbn [lstrip]. rewrite ?Ascii.eqb_refl, (lstrip_head _ H).
  cbn [String.length]. replace (S (String.length rel) - String.length rel) with 1 by lia.
  reflexivity.
Qed.

Lemma splitroot_2 rel :
  head_not_sep rel -> splitroot (String sep (String sep rel)) = ("//", rel).
Proof.
  intros H. unfold splitroot. rewrite ?Ascii.eqb_refl.
  cbn [lstrip]. rewrite ?Ascii.eqb_refl. cbn [lstrip].
  rewrite ?Ascii.eqb_refl, (lstrip_head _ H).
  cbn [String.length].
  replace (S (S (String.length rel)) - String.length rel) with 2 by lia.
  reflexivity.
Qed.

Lemma concat_head_not_sep l : Forall component l -> head_not_sep (String.concat "/" l).
Proof.
  intros H. pose proof (concat_head l H) as Hh.
  destruct (String.concat "/" l); [exact I | exact Hh].
Qed.

(** Printing a parsed path and parsing it again gives the same path. *)
Lemma Path_str p : normal p -> Path (str p) = p.
Proof.
  intros [Hr Hc]. destruct p as [r l]. cbn [root parts] in *.
  pose proof (concat_head_not_sep l Hc) as Hh. pose proof (parse_rel l Hc) as Hp.
  unfold str. cbn [root parts].
  destruct Hr as [-> | [-> | ->]].
  - change ("" +:+ String.concat "/" l) with (String.concat "/" l).
    destruct (String.eqb (String.concat "/" l) "") eqn:E.
    + apply String.eqb_eq in E. pose proof (concat_head l Hc) as Hl.
      rewrite E in Hl. subst l. reflexivity.
    + unfold Path. rewrite (splitroot_0 _ Hh), Hp. reflexivity.
  - change ("/" +:+ String.concat "/" l) with (String sep (String.concat "/" l)).
    cbn [String.eqb]. unfold Path. rewrite (splitroot_1 _ Hh), Hp. reflexivity.
  - change ("//" +:+ String.concat "/" l)
      with (String sep (String sep (String.concat "/" l))).
    cbn [String.eqb]. unfold Path. rewrite (splitroot_2 _ Hh), Hp. reflexivity.
Qed.

Lemma str_Path_str s : str (Path (str (Path s))) = str (Path s).
Proof. now rewrite (Path_str _ (Path_normal s)). Qed.

Lemma contains_app c a b : contains c (a +:+ b) = contains c a || contains c b.
Proof.
  induction a as [|x a IH]; simpl; [reflexivity|]. now rewrite IH, orb_assoc.
Qed.

(** [with_suffix] keeps parsed paths parsed. *)
Lemma with_suffix_normal p q :
  normal p -> name p <> "" -> with_suffix p ".pp" = inr q -> normal q.
Proof.
  intros [Hr Hc] Hn Hq. rewrite (with_suffix_pp _ Hn) in Hq. injection Hq as <-.
  split; [exact Hr|]. cbn [parts]. apply Forall_app. split.
  - rewrite (name_nonempty_parts _ Hn) in Hc. now apply Forall_app in Hc as [? _].
  - constructor; [|constructor].
    assert (Hcn : component (name p)).
    { rewrite (name_nonempty_parts _ Hn) in Hc. apply Forall_app in Hc as [_ Hl].
      now inversion Hl. }
    destruct Hcn as (_ & _ & Hsep).
    pose proof (stem_suffix (name p)) as Hss. fold (stem p) in Hss.
    rewrite <- Hss, contains_app in Hsep. apply orb_false_iff in Hsep as [Hst _].
    pose proof (stem_nonempty _ Hn) as Hne. fold (stem p) in Hne.
    repeat split.
    + now apply app_nonempty.
    + destruct (stem p) as [|a [|b st]]; [congruence | discriminate | discriminate].
    + rewrite contains_app, Hst. reflexivity.
Qed.
End pathlib_facts.

(** ** The methods *)

Section Properties.
Context {Config Root DataFrame : Type} `{Ext : Externals Config Root}.

Abbreviation value := (pyval Config Root).
Abbreviation report := (@SerializeReport Config Root DataFrame).
Abbreviation world := (@World Config Root DataFrame).

Implicit Types (w : world) (s : report) (data : bytes) (e : pyexn).
Implicit Types (h c ds r t v : value).

(** Unfolds one layer of the method monad. *)
Ltac run :=
  unfold mbind, mret, M_bind, M_ret, try_except, lift, raise, get_self,
    get_config, set_description_set, set_report, set_df_hash, set_title,
    set_self, config_update_value, config_update, warn;
  cbn beta iota delta [fst snd].

(** *** Equality of hashes *)

Lemma py_eq_spec h x :
  (is_None h || isinstance_str h) = true ->
  py_eq h x = true <-> h = x.
Proof.
  intros Hs. destruct h; try discriminate; destruct x; simpl; split;
    try discriminate; try reflexivity.
  - intros E. apply String.eqb_eq in E. now subst.
  - intros E. inversion E. apply String.eqb_refl.
Qed.

(** *** The shape check *)

Lemma shape_checks_and h c ds r t :
  py_all (shape_checks h c ds r t)
  = ((is_None h || isinstance_str h)
     && ((is_None t || isinstance_str t)
     && (isinstance_Config c
     && ((is_None ds || isinstance_dict ds)
     && (is_None r || isinstance_Root r))))).
Proof.
  unfold py_all, shape_checks. simpl. unfold id.
  now rewrite andb_true_r.
Qed.

Lemma shape_checks_Config h c ds r t :
  py_all (shape_checks h c ds r t) = true -> exists lc, c = PyConfig lc.
Proof.
  rewrite shape_checks_and. intros H.
  repeat (apply andb_true_iff in H as [? H]).
  destruct c; try discriminate. eauto.
Qed.

(** *** [dumps] reads and never writes *)

Lemma dumps_spec w :
  dumps w = (pickle_dumps (snapshot (self w) (config w)), w).
Proof. reflexivity. Qed.

(** *** The three ways [loads] refuses *)

Lemma loads_undecodable data ic w e :
  decode_snapshot data = inl e ->
  loads data ic w = (inl (ValueError (msg_decode e)), w).
Proof. intros H. unfold loads. run. now rewrite H. Qed.

Lemma loads_misshapen data ic w h c ds r t :
  decode_snapshot data = inr (h, c, ds, r, t) ->
  py_all (shape_checks h c ds r t) = false ->
  loads data ic w = (inl (ValueError msg_incompatible), w).
Proof. intros H Hs. unfold loads. run. rewrite H. run. now rewrite Hs. Qed.

Lemma loads_incompatible data ic w h c ds r t :
  decode_snapshot data = inr (h, c, ds, r, t) ->
  py_all (shape_checks h c ds r t) = true ->
  compatible h (self w) (config w) = false ->
  loads data ic w = (inl (ValueError msg_mismatch), w).
Proof.
  intros H Hs Hc. unfold loads. run. rewrite H. run. rewrite Hs.
  cbn [negb]. now rewrite Hc.
Qed.

(** *** The merge *)

Lemma loads_compatible data ic w h lc ds r t :
  decode_snapshot data = inr (h, PyConfig lc, ds, r, t) ->
  py_all (shape_checks h (PyConfig lc) ds r t) = true ->
  compatible h (self w) (config w) = true ->
  loads data ic w =
    match advisory_of ds with
    | inl e => (inl e, merged_world w lc ds r)
    | inr advisory => (inr tt, loaded_world w lc h ds r t advisory)
    end.
Proof.
  intros H Hs Hc. unfold loads. run. rewrite H. run. rewrite Hs.
  cbn [negb]. rewrite Hc. destruct w as [[sh sdf sdh sr sds st] cfg ws files]. simpl.
  unfold advisory_of, loaded_world, merged_world, merge_field, skip_warning,
    version_warning. simpl.
  destruct (is_None sds); simpl; destruct (is_None sr); simpl;
    destruct (is_None ds); simpl;
    rewrite ?app_nil_r, <- ?app_assoc; simpl; try reflexivity;
    destruct (package_version ds); simpl; try reflexivity.
  all: match goal with
    | |- context [py_ne_str ?x __version__] => destruct (py_ne_str x __version__)
    end; simpl; rewrite ?app_nil_r, <- ?app_assoc; reflexivity.
Qed.

(** A completed load, spelled out: when the version lookup succeeds the
    load returns, with the fields merged, the configuration updated,
    the identity set and the advisory issued. *)
Lemma loads_completes data ic w h lc ds r t advisory :
  decode_snapshot data = inr (h, PyConfig lc, ds, r, t) ->
  py_all (shape_checks h (PyConfig lc) ds r t) = true ->
  compatible h (self w) (config w) = true ->
  advisory_of ds = inr advisory ->
  loads data ic w = (inr tt, loaded_world w lc h ds r t advisory).
Proof.
  intros H Hs Hc Ha. rewrite (loads_compatible _ _ _ _ _ _ _ _ H Hs Hc).
  now rewrite Ha.
Qed.

Lemma advisory_of_marked ds :
  version_marked ds ->
  exists advisory, advisory_of ds = inr advisory.
Proof.
  unfold advisory_of. intros [-> | [v Hv]]; simpl; eauto.
  destruct (is_None ds); eauto. rewrite Hv. simpl. eauto.
Qed.

Lemma fresh_target_compatible h w :
  fresh_target w -> compatible h (self w) (config w) = true.
Proof.
  intros (Hd & Hdf & _). unfold compatible. rewrite Hd, Hdf.
  rewrite bool_decide_eq_true_2 by reflexivity. apply orb_true_r.
Qed.

(** *** Claims *)

(** Round trip, where the version lookup of [loads] succeeds: take a
    report whose attributes have the shapes of the data model and whose
    description set, when present, carries the package-version entry.  If [dumps] returns
    [data] and the codec gives back the list it was handed, then
    [loads data] into a fresh target (default configuration, no dataset
    bound, nothing computed) returns, and the target's [_df_hash],
    [_title], [_description_set] and [_report] are the original's
    [df_hash], [_title], [_description_set] and [_report]. *)
Theorem loads_dumps_roundtrip (w0 w : world) data ic :
  well_shaped (self w0) ->
  version_marked (_description_set (self w0)) ->
  fst (dumps w0) = inr data ->
  pickle_loads data = inr (snapshot (self w0) (config w0)) ->
  fresh_target w ->
  exists w',
    loads data ic w = (inr tt, w')
    /\ _df_hash (self w') = df_hash (self w0)
    /\ _title (self w') = _title (self w0)
    /\ _description_set (self w') = _description_set (self w0)
    /\ _report (self w') = _report (self w0).
Proof.
  intros (Hh & Ht & Hds & Hr) Hm _ Hl Hf.
  assert (Hdec : decode_snapshot data
                 = inr (df_hash (self w0), PyConfig (config w0),
                        _description_set (self w0), _report (self w0),
                        _title (self w0))).
  { unfold decode_snapshot. rewrite Hl. reflexivity. }
  assert (Hs : py_all (shape_checks (df_hash (self w0)) (PyConfig (config w0))
                         (_description_set (self w0)) (_report (self w0))
                         (_title (self w0))) = true).
  { rewrite shape_checks_and, Hh, Ht, Hds, Hr. reflexivity. }
  destruct (advisory_of_marked _ Hm) as [advisory Ha].
  eexists. split.
  - exact (loads_completes _ ic _ _ _ _ _ _ _ Hdec Hs
             (fresh_target_compatible _ _ Hf) Ha).
  - destruct Hf as (_ & _ & Hnds & Hnr). unfold loaded_world, merged_world.
    simpl. rewrite Hnds, Hnr. simpl. auto.
Qed.

(** C2.  Identity gate: a decoded snapshot of the right shapes whose
    hash differs from the target's [df_hash], loaded while the active
    configuration is not the default one or a dataset is bound, makes
    [loads] raise [ValueError] with the dataset-mismatch message, and the
    world (every attribute of the target, the configuration, the
    warnings, the files) is as it was. *)
Theorem loads_identity_gate data ic w h c ds r t :
  decode_snapshot data = inr (h, c, ds, r, t) ->
  py_all (shape_checks h c ds r t) = true ->
  h <> df_hash (self w) ->
  is_default (config w) = false \/ df (self w) <> None ->
  loads data ic w
  = (inl (ValueError "DataFrame does not match with the current ProfileReport."), w).
Proof.
  intros H Hs Hne Hnd. apply (loads_incompatible _ _ _ _ _ _ _ _ H Hs).
  unfold compatible. apply orb_false_iff. split.
  - apply not_true_is_false. intros E. apply Hne.
    apply py_eq_spec in E; [exact E|].
    rewrite shape_checks_and in Hs. now apply andb_true_iff in Hs as [? _].
  - destruct Hnd as [-> | Hdf]; [reflexivity|].
    rewrite bool_decide_eq_false_2 by exact Hdf. apply andb_false_r.
Qed.

(** C3.  Structural validation: when the decoded five values include
    one of the wrong shape (hash not [None] or a string, configuration
    not a [Config], description set not [None] or a mapping, report not
    [None] or a [Root], title not [None] or a string), [loads] raises
    [ValueError] with the damaged-or-incompatible message and the world
    is as it was; the five checks are one conjunction. *)
Theorem loads_rejects_bad_shape data ic w h c ds r t :
  decode_snapshot data = inr (h, c, ds, r, t) ->
  (is_None h || isinstance_str h) = false
  \/ isinstance_Config c = false
  \/ (is_None ds || isinstance_dict ds) = false
  \/ (is_None r || isinstance_Root r) = false
  \/ (is_None t || isinstance_str t) = false ->
  py_all (shape_checks h c ds r t)
  = ((is_None h || isinstance_str h)
     && ((is_None t || isinstance_str t)
     && (isinstance_Config c
     && ((is_None ds || isinstance_dict ds)
     && (is_None r || isinstance_Root r)))))
  /\ loads data ic w
     = (inl (ValueError
               "Failed to load data: file may be damaged or from an incompatible version"),
        w).
Proof.
  intros H Hbad. split; [apply shape_checks_and|].
  apply (loads_misshapen _ _ _ _ _ _ _ _ H).
  rewrite shape_checks_and.
  destruct Hbad as [-> | [-> | [-> | [-> | ->]]]];
    rewrite ?andb_false_r; reflexivity.
Qed.

(** C4.  Decode failure: when the codec raises [e] on the bytes, or
    returns a value whose unpacking into five names raises [e], [loads]
    raises one [ValueError] whose message is ["Failed to load data: "]
    followed by [str(e)], and the world is as it was. *)
Theorem loads_wraps_decode_failure data ic w e :
  pickle_loads data = inl e
  \/ (exists v, pickle_loads data = inr v /\ unpack5 v = inl e) ->
  loads data ic w
  = (inl (ValueError ("Failed to load data: " +:+ exn_msg e)), w).
Proof.
  intros Hfail. apply loads_undecodable. unfold decode_snapshot.
  destruct Hfail as [-> | (v & -> & Hu)]; [reflexivity | exact Hu].
Qed.

(** C5.  Field merge: in a compatible load of a well-shaped snapshot,
    [_description_set] and [_report] are settled one by one: a field
    that is [None] takes the loaded value, a field that is set keeps its
    value and its own warning is issued; nothing else is warned about
    except the version advisory, and the load returns unless the
    version lookup itself raises. *)
Theorem loads_merges_fields_independently data ic w h c ds r t :
  decode_snapshot data = inr (h, c, ds, r, t) ->
  py_all (shape_checks h c ds r t) = true ->
  compatible h (self w) (config w) = true ->
  exists res w' advisory,
    loads data ic w = (res, w')
    /\ _description_set (self w')
       = (if is_None (_description_set (self w)) then ds
          else _description_set (self w))
    /\ _report (self w')
       = (if is_None (_report (self w)) then r else _report (self w))
    /\ warnings w'
       = (warnings w
          ++ (if is_None (_description_set (self w)) then []
              else ["The description set of current ProfileReport is not None. It won't be loaded."])
          ++ (if is_None (_report (self w)) then []
              else ["The report of current ProfileReport is not None. It won't be loaded."])
          ++ advisory)%list
    /\ (advisory = [] \/ exists v, advisory = version_warning v)
    /\ (version_marked ds -> res = inr tt).
Proof.
  intros H Hs Hc. destruct (shape_checks_Config _ _ _ _ _ Hs) as [lc ->].
  rewrite (loads_compatible _ ic _ _ _ _ _ _ H Hs Hc).
  destruct (advisory_of ds) as [e | advisory] eqn:Ha.
  - exists (inl e), (merged_world w lc ds r), []. simpl.
    unfold merge_field, skip_warning, msg_description_set, msg_report.
    rewrite app_nil_r. repeat split; try reflexivity; [now left|].
    intros Hm. destruct (advisory_of_marked _ Hm) as [a Ha']. congruence.
  - exists (inr tt), (loaded_world w lc h ds r t advisory), advisory. simpl.
    unfold merge_field, skip_warning, msg_description_set, msg_report.
    rewrite <- !app_assoc. repeat split; try reflexivity.
    unfold advisory_of in Ha. destruct (is_None ds); [left; congruence|].
    destruct (package_version ds) as [|v]; [discriminate|].
    right. exists v. simpl in Ha. congruence.
Qed.

(** The identity update, where the load completes: [_df_hash] and
    [_title] take the loaded values whatever the merge kept. *)
Lemma loads_sets_identity data ic w h c ds r t :
  decode_snapshot data = inr (h, c, ds, r, t) ->
  py_all (shape_checks h c ds r t) = true ->
  compatible h (self w) (config w) = true ->
  version_marked ds ->
  exists w',
    loads data ic w = (inr tt, w')
    /\ _df_hash (self w') = h /\ _title (self w') = t.
Proof.
  intros H Hs Hc Hm. destruct (shape_checks_Config _ _ _ _ _ Hs) as [lc ->].
  destruct (advisory_of_marked _ Hm) as [advisory Ha].
  eexists. split; [exact (loads_completes _ ic _ _ _ _ _ _ _ H Hs Hc Ha)|].
  split; reflexivity.
Qed.

(** C7.  [ignore_config] is never read: [loads] and [load] give the
    same result and leave the same world (target, configuration,
    warnings, files) for both of its values. *)
Theorem loads_ignores_ignore_config data (f : path_arg) w :
  loads data true w = loads data false w
  /\ load f true w = load f false w.
Proof. split; reflexivity. Qed.

(** C9 (as amended).  Version advisory: in a compatible load of a
    well-shaped snapshot whose own description set is present and
    carries the package-version entry [v], [loads] compares [v] with
    [__version__] and issues the advisory, which names both versions,
    exactly when they differ; the comparison is on the loaded description
    set whether or not the merge adopted it.  With or without the
    advisory the load returns and leaves the same target and
    configuration. *)
Theorem loads_version_advisory data ic w h c ds r t v :
  decode_snapshot data = inr (h, c, ds, r, t) ->
  py_all (shape_checks h c ds r t) = true ->
  compatible h (self w) (config w) = true ->
  ds <> PyNone ->
  package_version ds = inr v ->
  exists lc w',
    c = PyConfig lc
    /\ loads data ic w = (inr tt, w')
    /\ warnings w'
       = (warnings (merged_world w lc ds r)
          ++ (if py_ne_str v __version__
              then ["The package version specified in the loaded data is not equal to the version installed. "
                    +:+ "Currently running on pandas-profiling " +:+ __version__
                    +:+ " , while loaded data is generated by pandas_profiling, "
                    +:+ py_str v +:+ "."]
              else []))%list
    /\ self w' = self (loaded_world w lc h ds r t [])
    /\ config w' = update (config w) lc
    /\ fs w' = fs w.
Proof.
  intros H Hs Hc Hne Hv. destruct (shape_checks_Config _ _ _ _ _ Hs) as [lc ->].
  assert (Ha : advisory_of ds = inr (version_warning v)).
  { unfold advisory_of. destruct ds; try congruence; cbn [is_None];
      rewrite Hv; reflexivity. }
  exists lc, (loaded_world w lc h ds r t (version_warning v)).
  split; [reflexivity|].
  split; [exact (loads_completes _ ic _ _ _ _ _ _ _ H Hs Hc Ha)|].
  repeat split.
Qed.

(** C10.  The version lookup is not total: a compatible, well-shaped
    snapshot whose description set is a mapping without the ["package"]
    key, or whose ["package"] mapping lacks
    ["pandas_profiling_version"], makes [loads] end in a [KeyError] --
    not one of the [ValueError]s it documents -- after the fields are
    merged and the configuration is updated; [_df_hash] and [_title] are
    not reached. *)
Theorem version_lookup_escapes data ic w h c d r t :
  decode_snapshot data = inr (h, c, PyDict d, r, t) ->
  py_all (shape_checks h c (PyDict d) r t) = true ->
  compatible h (self w) (config w) = true ->
  dict_get d "package" = None
  \/ (exists p, dict_get d "package" = Some (PyDict p)
                /\ dict_get p "pandas_profiling_version" = None) ->
  exists e lc w',
    loads data ic w = (inl e, w')
    /\ exn_class e = "KeyError"
    /\ exn_class e <> "ValueError"
    /\ c = PyConfig lc
    /\ _description_set (self w')
       = (if is_None (_description_set (self w)) then PyDict d
          else _description_set (self w))
    /\ _report (self w')
       = (if is_None (_report (self w)) then r else _report (self w))
    /\ config w' = update (config w) lc
    /\ _df_hash (self w') = _df_hash (self w)
    /\ _title (self w') = _title (self w).
Proof.
  intros H Hs Hc Hmiss. destruct (shape_checks_Config _ _ _ _ _ Hs) as [lc ->].
  rewrite (loads_compatible _ ic _ _ _ _ _ _ H Hs Hc).
  assert (Ha : exists key, advisory_of (PyDict d) = inl (KeyError key)).
  { unfold advisory_of, package_version. simpl.
    destruct Hmiss as [-> | (p & -> & Hp)]; simpl; [eauto|].
    rewrite Hp. simpl. eauto. }
  destruct Ha as [key ->].
  exists (KeyError key), lc, (merged_world w lc (PyDict d) r).
  repeat split; try reflexivity. discriminate.
Qed.

(** *** [dump] *)

Lemma dump_spec (f : path_arg) w :
  dump f w =
    match pathlib.with_suffix (as_Path f) ".pp" with
    | inl e => (inl e, w)
    | inr q =>
        match pickle_dumps (snapshot (self w) (config w)) with
        | inl e => (inl e, w)
        | inr data =>
            match os_write_bytes (fs w) (pathlib.str q) data with
            | Written =>
                (inr tt, mkWorld (self w) (config w) (warnings w)
                           (<[pathlib.str q := data]> (fs w)))
            | OpenFailed e => (inl e, w)
            | WriteFailed e partial =>
                (inl e, mkWorld (self w) (config w) (warnings w)
                          (<[pathlib.str q := partial]> (fs w)))
            end
        end
    end.
Proof.
  unfold dump. run. destruct (pathlib.with_suffix (as_Path f) ".pp"); [reflexivity|].
  rewrite dumps_spec. destruct (pickle_dumps _); [reflexivity|].
  cbn beta iota. unfold write_bytes.
  destruct (os_write_bytes _ _ _); reflexivity.
Qed.

(** A [dump] that returns had a path with a file name, bytes from
    [dumps], and a write that went through. *)
Lemma dump_returned (f : path_arg) w :
  fst (dump f w) = inr tt ->
  exists data,
    pathlib.name (as_Path f) <> ""
    /\ fst (dumps w) = inr data
    /\ os_write_bytes (fs w) (pathlib.str (pathlib.with_pp (as_Path f))) data = Written
    /\ snd (dump f w)
       = mkWorld (self w) (config w) (warnings w)
           (<[pathlib.str (pathlib.with_pp (as_Path f)) := data]> (fs w)).
Proof.
  intros Hr. rewrite dump_spec in Hr |- *. rewrite dumps_spec.
  destruct (String.eqb (pathlib.name (as_Path f)) "") eqn:E.
  { apply String.eqb_eq in E. unfold pathlib.with_suffix in Hr. simpl in Hr.
    rewrite E in Hr. discriminate. }
  apply String.eqb_neq in E.
  rewrite (pathlib_facts.with_suffix_pp _ E) in Hr |- *.
  fold (pathlib.with_pp (as_Path f)) in Hr |- *.
  destruct (pickle_dumps _) as [e|data]; [discriminate|].
  exists data. simpl.
  destruct (os_write_bytes _ _ _); try discriminate. repeat split. exact E.
Qed.

(** C8 (as amended).  Extension coercion: for a path argument whose
    last component is not empty, [dump] hands the bytes of [dumps] to the
    write on the path with the same root and directories whose file name
    is the stem of the given name followed by [".pp"] -- the suffix of the
    given name, if it has one, is replaced; when the operating system
    lets that write through, the file there holds the bytes and nothing
    else is touched. *)
Theorem dump_writes_pp (f : path_arg) w data :
  pathlib.name (as_Path f) <> "" ->
  fst (dumps w) = inr data ->
  os_write_bytes (fs w) (pathlib.str (pathlib.with_pp (as_Path f))) data = Written ->
  exists q,
    pathlib.root q = pathlib.root (as_Path f)
    /\ pathlib.parts q
       = (List.removelast (pathlib.parts (as_Path f))
          ++ [pathlib.stem (as_Path f) +:+ ".pp"])%list
    /\ pathlib.stem (as_Path f) +:+ pathlib.suffix (as_Path f)
       = pathlib.name (as_Path f)
    /\ pathlib.suffix q = ".pp"
    /\ dump f w
       = (inr tt, mkWorld (self w) (config w) (warnings w)
                    (<[pathlib.str q := data]> (fs w))).
Proof.
  intros Hn Hd Hw. rewrite dumps_spec in Hd. simpl in Hd.
  exists (pathlib.with_pp (as_Path f)). split; [reflexivity|]. split; [reflexivity|].
  split; [apply pathlib_facts.stem_suffix|]. split.
  - unfold pathlib.suffix, pathlib.with_pp. rewrite pathlib_facts.name_with_name.
    apply pathlib_facts.suffix_of_pp. now apply pathlib_facts.stem_nonempty.
  - rewrite dump_spec, (pathlib_facts.with_suffix_pp _ Hn), Hd.
    fold (pathlib.with_pp (as_Path f)). now rewrite Hw.
Qed.

(** [dump("report")] and [dump("report.json")] both write [report.pp],
    where that write goes through; the second leaves [report.json]
    alone. *)
Example dump_report w data :
  fst (dumps w) = inr data ->
  os_write_bytes (fs w) "report.pp" data = Written ->
  dump (ArgStr "report") w
  = (inr tt, mkWorld (self w) (config w) (warnings w) (<["report.pp" := data]> (fs w))).
Proof.
  intros Hd Hw. rewrite dumps_spec in Hd. simpl in Hd.
  rewrite dump_spec. simpl. rewrite Hd.
  change (pathlib.str _) with "report.pp". now rewrite Hw.
Qed.

Example dump_report_json w data :
  fst (dumps w) = inr data ->
  os_write_bytes (fs w) "report.pp" data = Written ->
  exists w',
    dump (ArgStr "report.json") w = (inr tt, w')
    /\ fs w' = <["report.pp" := data]> (fs w)
    /\ fs w' !! "report.json" = fs w !! "report.json".
Proof.
  intros Hd Hw. rewrite dumps_spec in Hd. simpl in Hd.
  rewrite dump_spec. simpl. rewrite Hd.
  change (pathlib.str _) with "report.pp". rewrite Hw.
  eexists. split; [reflexivity|].
  simpl. split; [reflexivity|]. now rewrite lookup_insert_ne.
Qed.

(** *** Beyond the claims: outcomes of [loads] *)

Lemma compatible_spec h s (c : Config) :
  (is_None h || isinstance_str h) = true ->
  compatible h s c = true
  <-> h = df_hash s \/ (is_default c = true /\ df s = None).
Proof.
  intros Hs. unfold compatible, self_df_hash. rewrite orb_true_iff, andb_true_iff.
  rewrite (py_eq_spec _ _ Hs), bool_decide_eq_true. reflexivity.
Qed.

Lemma shape_checks_hash h c ds r t :
  py_all (shape_checks h c ds r t) = true ->
  (is_None h || isinstance_str h) = true.
Proof.
  rewrite shape_checks_and. intros H. now apply andb_true_iff in H as [? _].
Qed.

(** The compatibility decision, read as a whole: a decoded snapshot of
    the right shapes whose description set is absent or version-marked is
    accepted exactly when its hash is the target's [df_hash], or the
    active configuration is the default one and no dataset is bound;
    otherwise the load is refused with the dataset-mismatch error. *)
Theorem loads_accepts_iff_compatible data ic w h c ds r t :
  decode_snapshot data = inr (h, c, ds, r, t) ->
  py_all (shape_checks h c ds r t) = true ->
  version_marked ds ->
  (fst (loads data ic w) = inr tt
   <-> h = df_hash (self w) \/ (is_default (config w) = true /\ df (self w) = None))
  /\ (fst (loads data ic w) = inr tt
      \/ loads data ic w = (inl (ValueError msg_mismatch), w)).
Proof.
  intros H Hs Hm.
  rewrite <- (compatible_spec _ _ _ (shape_checks_hash _ _ _ _ _ Hs)).
  destruct (compatible h (self w) (config w)) eqn:Hc.
  - destruct (shape_checks_Config _ _ _ _ _ Hs) as [lc ->].
    destruct (advisory_of_marked _ Hm) as [advisory Ha].
    rewrite (loads_completes _ ic _ _ _ _ _ _ _ H Hs Hc Ha). simpl.
    split; [tauto | now left].
  - rewrite (loads_incompatible _ ic _ _ _ _ _ _ H Hs Hc). simpl.
    split; [split; discriminate | now right].
Qed.

(** Exception safety of [loads]: an exception either is a [ValueError]
    raised with the world exactly as it was, or it is the exception of the
    version lookup on the loaded description set, raised after the merge of
    the fields and of the configuration and before the identity update. *)
Theorem loads_exception_safety data ic w e w' :
  loads data ic w = (inl e, w') ->
  (exn_class e = "ValueError" /\ w' = w)
  \/ (exists h lc ds r t,
        decode_snapshot data = inr (h, PyConfig lc, ds, r, t)
        /\ compatible h (self w) (config w) = true
        /\ ds <> PyNone
        /\ package_version ds = inl e
        /\ w' = merged_world w lc ds r).
Proof.
  intros Hl. destruct (decode_snapshot data) as [e0 | [[[[h c] ds] r] t]] eqn:H.
  { rewrite (loads_undecodable _ ic w _ H) in Hl. injection Hl as <- <-. now left. }
  destruct (py_all (shape_checks h c ds r t)) eqn:Hs.
  2:{ rewrite (loads_misshapen _ ic w _ _ _ _ _ H Hs) in Hl.
      injection Hl as <- <-. now left. }
  destruct (compatible h (self w) (config w)) eqn:Hc.
  2:{ rewrite (loads_incompatible _ ic w _ _ _ _ _ H Hs Hc) in Hl.
      injection Hl as <- <-. now left. }
  destruct (shape_checks_Config _ _ _ _ _ Hs) as [lc ->].
  rewrite (loads_compatible _ ic _ _ _ _ _ _ H Hs Hc) in Hl.
  unfold advisory_of in Hl. destruct (is_None ds) eqn:Hn; [discriminate|].
  destruct (package_version ds) as [e1|v1] eqn:Hv; simpl in Hl; [|discriminate].
  injection Hl as <- <-. right. exists h, lc, ds, r, t.
  repeat split; try assumption. intros ->. discriminate.
Qed.

(** What [loads] never does: it leaves the files and the bound dataset
    alone, and it only adds warnings, at most three of them. *)
Theorem loads_frame data ic w :
  fs (snd (loads data ic w)) = fs w
  /\ df (self (snd (loads data ic w))) = df (self w)
  /\ exists new,
       warnings (snd (loads data ic w)) = (warnings w ++ new)%list
       /\ List.length new <= 3.
Proof.
  assert (Hsame : fs w = fs w /\ df (self w) = df (self w) /\
            exists new, warnings w = (warnings w ++ new)%list /\ List.length new <= 3).
  { repeat split. exists []. rewrite app_nil_r. split; [reflexivity | simpl; lia]. }
  destruct (decode_snapshot data) as [e0 | [[[[h c] ds] r] t]] eqn:H.
  { now rewrite (loads_undecodable _ ic w _ H). }
  destruct (py_all (shape_checks h c ds r t)) eqn:Hs.
  2:{ now rewrite (loads_misshapen _ ic w _ _ _ _ _ H Hs). }
  destruct (compatible h (self w) (config w)) eqn:Hc.
  2:{ now rewrite (loads_incompatible _ ic w _ _ _ _ _ H Hs Hc). }
  destruct (shape_checks_Config _ _ _ _ _ Hs) as [lc ->].
  rewrite (loads_compatible _ ic _ _ _ _ _ _ H Hs Hc).
  assert (Hlen : forall (x : value) m, List.length (skip_warning x m) <= 1).
  { intros x m. unfold skip_warning. destruct (is_None x); simpl; lia. }
  pose proof (Hlen (_description_set (self w)) msg_description_set) as L1.
  pose proof (Hlen (_report (self w)) msg_report) as L2.
  destruct (advisory_of ds) as [e | advisory] eqn:Ha; simpl.
  - repeat split. eexists. split; [reflexivity|]. rewrite length_app. lia.
  - repeat split. eexists. rewrite <- !app_assoc. split; [reflexivity|].
    rewrite !length_app.
    assert (List.length advisory <= 1).
    { unfold advisory_of in Ha. destruct (is_None ds).
      - injection Ha as <-. simpl. lia.
      - destruct (package_version ds); [discriminate|]. injection Ha as <-.
        unfold version_warning. destruct (py_ne_str _ _); simpl; lia. }
    lia.
Qed.

(** Arity: a decoded list or tuple that does not have exactly five items
    is refused as a decode failure that names the count, with the world
    as it was. *)
Theorem loads_wrong_arity data ic w l :
  pickle_loads data = inr (PyList l) \/ pickle_loads data = inr (PyTuple l) ->
  List.length l <> 5 ->
  exists msg,
    loads data ic w = (inl (ValueError ("Failed to load data: " +:+ msg)), w)
    /\ (List.length l < 5 ->
        msg = "not enough values to unpack (expected 5, got "
              +:+ digit (List.length l) +:+ ")")
    /\ (5 < List.length l -> msg = "too many values to unpack (expected 5)").
Proof.
  intros Hd Hn.
  assert (Hu : exists msg,
             decode_snapshot data = inl (ValueError msg)
             /\ (List.length l < 5 ->
                 msg = "not enough values to unpack (expected 5, got "
                       +:+ digit (List.length l) +:+ ")")
             /\ (5 < List.length l -> msg = "too many values to unpack (expected 5)")).
  { unfold decode_snapshot.
    assert (Hi : (v ← pickle_loads data; unpack5 v) = unpack5 (PyList l)
                 \/ (v ← pickle_loads data; unpack5 v) = unpack5 (PyTuple l))
      by (destruct Hd as [-> | ->]; [left | right]; reflexivity).
    assert (Hu : unpack5 (PyList l) = unpack5 (PyTuple l)) by reflexivity.
    assert (E : (v ← pickle_loads data; unpack5 v) = unpack5 (PyList l))
      by (destruct Hi as [-> | ->]; [reflexivity | now rewrite Hu]).
    rewrite E. clear E Hi Hu Hd. unfold unpack5. simpl.
    destruct l as [|a [|b [|c [|d [|e0 [|f l]]]]]]; simpl in *;
      try (exfalso; apply Hn; reflexivity);
      eexists; (split; [reflexivity|]); split; intros; try reflexivity; lia. }
  destruct Hu as (msg & Hdec & H1 & H2). exists msg.
  split; [exact (loads_undecodable _ ic w _ Hdec) | split; assumption].
Qed.

(** Arity is all the unpacking asks: a decoded string of five characters,
    or a mapping of five keys, unpacks into five strings and is then
    refused by the shape check, not as a decode failure. *)
Theorem loads_five_strings data ic w :
  (exists txt : string, pickle_loads data = inr (PyStr txt) /\ String.length txt = 5)
  \/ (exists d, pickle_loads data = inr (PyDict d) /\ List.length d = 5) ->
  loads data ic w = (inl (ValueError msg_incompatible), w).
Proof.
  intros [(txt & Hd & Hn) | (d & Hd & Hn)].
  - destruct txt as [|a [|b [|c0 [|d [|e0 [|f txt]]]]]]; try discriminate.
    eapply loads_misshapen; [unfold decode_snapshot; rewrite Hd; reflexivity|].
    reflexivity.
  - destruct d as [|a [|b [|c0 [|d0 [|e0 [|f d]]]]]]; try discriminate.
    eapply loads_misshapen; [unfold decode_snapshot; rewrite Hd; reflexivity|].
    reflexivity.
Qed.

(** The other way the version lookup escapes: when the ["package"] entry
    of the loaded description set is [None], a number, a string, a list or
    a tuple, indexing it raises a [TypeError], again after the merge. *)
Theorem version_lookup_type_error data ic w h c d p r t :
  decode_snapshot data = inr (h, c, PyDict d, r, t) ->
  py_all (shape_checks h c (PyDict d) r t) = true ->
  compatible h (self w) (config w) = true ->
  dict_get d "package" = Some p ->
  isinstance_dict p = false ->
  isinstance_Config p = false ->
  isinstance_Root p = false ->
  exists e lc,
    c = PyConfig lc
    /\ loads data ic w = (inl e, merged_world w lc (PyDict d) r)
    /\ exn_class e = "TypeError".
Proof.
  intros H Hs Hc Hp Hd HC HR. destruct (shape_checks_Config _ _ _ _ _ Hs) as [lc ->].
  rewrite (loads_compatible _ ic _ _ _ _ _ _ H Hs Hc).
  unfold advisory_of, package_version. simpl. rewrite Hp. simpl.
  destruct p; try discriminate; simpl; eexists _, lc; repeat split.
Qed.

(** Two loads in a row: once a load has completed with a snapshot that
    brought both a description set and a report, the target holds both,
    and a later compatible load keeps them and warns about each. *)
Theorem second_load_keeps_fields d1 d2 ic1 ic2 w h1 c1 ds1 r1 t1 h2 c2 ds2 r2 t2 :
  decode_snapshot d1 = inr (h1, c1, ds1, r1, t1) ->
  py_all (shape_checks h1 c1 ds1 r1 t1) = true ->
  compatible h1 (self w) (config w) = true ->
  ds1 <> PyNone ->
  r1 <> PyNone ->
  (exists v, package_version ds1 = inr v) ->
  decode_snapshot d2 = inr (h2, c2, ds2, r2, t2) ->
  py_all (shape_checks h2 c2 ds2 r2 t2) = true ->
  compatible h2 (self (snd (loads d1 ic1 w))) (config (snd (loads d1 ic1 w))) = true ->
  let w1 := snd (loads d1 ic1 w) in
  let w2 := snd (loads d2 ic2 w1) in
  fst (loads d1 ic1 w) = inr tt
  /\ _description_set (self w1) <> PyNone
  /\ _report (self w1) <> PyNone
  /\ _description_set (self w2) = _description_set (self w1)
  /\ _report (self w2) = _report (self w1)
  /\ exists rest,
       warnings w2 = (warnings w1 ++ [msg_description_set; msg_report] ++ rest)%list.
Proof.
  intros H1 Hs1 Hc1 Hds Hr Hv H2 Hs2 Hc2. cbv zeta.
  destruct (shape_checks_Config _ _ _ _ _ Hs1) as [lc1 ->].
  destruct (shape_checks_Config _ _ _ _ _ Hs2) as [lc2 ->].
  destruct (advisory_of_marked ds1 (or_intror Hv)) as [a1 Ha1].
  pose proof (loads_completes _ ic1 _ _ _ _ _ _ _ H1 Hs1 Hc1 Ha1) as E1.
  assert (Hset : forall (x y : value), y <> PyNone -> is_None (merge_field x y) = false).
  { intros x y Hy. unfold merge_field. destruct x; simpl; try reflexivity.
    destruct y; try reflexivity. congruence. }
  assert (Hnn : forall x : value, is_None x = false -> x <> PyNone)
    by (intros x Hx ->; discriminate).
  assert (Nd : is_None (_description_set (self (snd (loads d1 ic1 w)))) = false)
    by (rewrite E1; simpl; now apply Hset).
  assert (Nr : is_None (_report (self (snd (loads d1 ic1 w)))) = false)
    by (rewrite E1; simpl; now apply Hset).
  split; [now rewrite E1|]. split; [now apply Hnn|]. split; [now apply Hnn|].
  rewrite (loads_compatible _ ic2 _ _ _ _ _ _ H2 Hs2 Hc2).
  destruct (advisory_of ds2) as [e | a2]; simpl;
    unfold merge_field, skip_warning; rewrite Nd, Nr; simpl.
  - repeat split. exists []. reflexivity.
  - repeat split. exists a2. now rewrite <- app_assoc.
Qed.

(** *** Beyond the claims: [dump] and [load] *)

Lemma load_spec (f : path_arg) ic w :
  load f ic w =
    match fs w !! pathlib.str (as_Path f) with
    | Some data => loads data ic w
    | None =>
        (inl (PyExn "FileNotFoundError"
                ("[Errno 2] No such file or directory: '"
                 +:+ pathlib.str (as_Path f) +:+ "'")), w)
    end.
Proof.
  unfold load, read_bytes. run. destruct (fs w !! pathlib.str (as_Path f));
    [destruct (loads _ ic w) as [[?|?] ?]|]; reflexivity.
Qed.

(** What [dump] never does: it leaves the report, the configuration and
    the warnings alone and changes the file system at one path at most.
    When it raises, either nothing at all has changed, or the write
    itself broke off after the file was opened, and the file at the
    [.pp] path holds what had been written by then. *)
Theorem dump_frame (f : path_arg) w :
  self (snd (dump f w)) = self w
  /\ config (snd (dump f w)) = config w
  /\ warnings (snd (dump f w)) = warnings w
  /\ (exists path, forall other,
        other <> path -> fs (snd (dump f w)) !! other = fs w !! other)
  /\ (forall e, fst (dump f w) = inl e ->
      snd (dump f w) = w
      \/ exists q data partial,
           pathlib.with_suffix (as_Path f) ".pp" = inr q
           /\ fst (dumps w) = inr data
           /\ os_write_bytes (fs w) (pathlib.str q) data = WriteFailed e partial
           /\ fs (snd (dump f w)) = <[pathlib.str q := partial]> (fs w)).
Proof.
  rewrite dump_spec, dumps_spec.
  destruct (pathlib.with_suffix (as_Path f) ".pp") as [e1|q]; simpl.
  { do 3 (split; [reflexivity|]). split; [now exists "" | now left]. }
  destruct (pickle_dumps (snapshot (self w) (config w))) as [e2|data]; simpl.
  { do 3 (split; [reflexivity|]). split; [now exists "" | now left]. }
  destruct (os_write_bytes (fs w) (pathlib.str q) data) as [|e3|e3 partial] eqn:Hw;
    simpl.
  - do 3 (split; [reflexivity|]). split; [|discriminate].
    exists (pathlib.str q). intros other Hne. now apply lookup_insert_ne.
  - do 3 (split; [reflexivity|]). split; [now exists "" | now left].
  - do 3 (split; [reflexivity|]). split.
    + exists (pathlib.str q). intros other Hne. now apply lookup_insert_ne.
    + intros e [= <-]. right. exists q, data, partial.
      repeat split; try reflexivity; assumption.
Qed.

(** A path without a file name ([""], ["."], ["/"]) is refused before
    anything is serialised: [dump] raises the [ValueError] of
    [with_suffix], whatever the codec would have done, and writes
    nothing. *)
Theorem dump_empty_name (f : path_arg) w :
  pathlib.name (as_Path f) = "" ->
  dump f w
  = (inl (ValueError ("PosixPath('" +:+ pathlib.str (as_Path f)
                      +:+ "') has an empty name")), w).
Proof.
  intros Hn. rewrite dump_spec. unfold pathlib.with_suffix. simpl.
  rewrite Hn. reflexivity.
Qed.

(** From [dump] to [load]: when [dump] returns, the path it wrote, given
    back to [load], hands [loads] exactly the bytes of [dumps]. *)
Theorem load_reads_what_dump_wrote (f : path_arg) w ic :
  fst (dump f w) = inr tt ->
  exists q data,
    pathlib.with_suffix (as_Path f) ".pp" = inr q
    /\ fst (dumps w) = inr data
    /\ load (ArgPath q) ic (snd (dump f w)) = loads data ic (snd (dump f w)).
Proof.
  intros Hr. destruct (dump_returned _ _ Hr) as (data & Hn & Hd & _ & Hw').
  exists (pathlib.with_pp (as_Path f)), data.
  split; [exact (pathlib_facts.with_suffix_pp _ Hn)|]. split; [exact Hd|].
  rewrite load_spec, Hw'. simpl. now rewrite lookup_insert_eq.
Qed.

(** [dump] then [load] with the same argument: when the argument already
    ends in [.pp] and [dump] returns, [load] reads what [dump] wrote. *)
Theorem dump_then_load_pp (f : path_arg) w ic :
  pathlib.suffix (as_Path f) = ".pp" ->
  fst (dump f w) = inr tt ->
  exists data,
    fst (dumps w) = inr data
    /\ load f ic (snd (dump f w)) = loads data ic (snd (dump f w)).
Proof.
  intros Hs Hr. destruct (dump_returned _ _ Hr) as (data & Hn & Hd & _ & Hw').
  exists data. split; [exact Hd|].
  assert (Hq : pathlib.with_pp (as_Path f) = as_Path f).
  { pose proof (pathlib_facts.with_suffix_fixed _ Hs) as H1.
    rewrite (pathlib_facts.with_suffix_pp _ Hn) in H1. now injection H1. }
  rewrite load_spec, Hw', Hq. simpl. now rewrite lookup_insert_eq.
Qed.


(** The whole way through a file: a report of the data model's shapes
    with a version-marked description set is dumped, and the dump
    returns; in a process that sees the resulting files, a fresh target
    that loads the written path ends with the original's hash, title,
    description set and report. *)
Theorem dump_load_roundtrip (f : path_arg) (w0 w : world) data ic :
  fst (dump f w0) = inr tt ->
  well_shaped (self w0) ->
  version_marked (_description_set (self w0)) ->
  fst (dumps w0) = inr data ->
  pickle_loads data = inr (snapshot (self w0) (config w0)) ->
  fresh_target w ->
  fs w = fs (snd (dump f w0)) ->
  exists q w',
    pathlib.with_suffix (as_Path f) ".pp" = inr q
    /\ load (ArgPath q) ic w = (inr tt, w')
    /\ (pathlib.normal (as_Path f) ->
        load (ArgStr (pathlib.str q)) ic w = (inr tt, w'))
    /\ _df_hash (self w') = df_hash (self w0)
    /\ _title (self w') = _title (self w0)
    /\ _description_set (self w') = _description_set (self w0)
    /\ _report (self w') = _report (self w0).
Proof.
  intros Hret (Hh & Ht & Hds & Hr) Hm Hd Hl Hf Hfs.
  destruct (dump_returned _ _ Hret) as (data' & Hn & Hd' & _ & Hw').
  assert (data' = data) by congruence. subst data'.
  rewrite Hw' in Hfs. simpl in Hfs.
  assert (Hdec : decode_snapshot data
                 = inr (df_hash (self w0), PyConfig (config w0),
                        _description_set (self w0), _report (self w0),
                        _title (self w0))).
  { unfold decode_snapshot. rewrite Hl. reflexivity. }
  assert (Hs : py_all (shape_checks (df_hash (self w0)) (PyConfig (config w0))
                         (_description_set (self w0)) (_report (self w0))
                         (_title (self w0))) = true).
  { rewrite shape_checks_and, Hh, Ht, Hds, Hr. reflexivity. }
  destruct (advisory_of_marked _ Hm) as [advisory Ha].
  assert (Hload : load (ArgPath (pathlib.with_pp (as_Path f))) ic w
                  = (inr tt, loaded_world w (config w0) (df_hash (self w0))
                               (_description_set (self w0)) (_report (self w0))
                               (_title (self w0)) advisory)).
  { rewrite load_spec. simpl. rewrite Hfs, lookup_insert_eq.
    exact (loads_completes _ ic _ _ _ _ _ _ _ Hdec Hs
             (fresh_target_compatible _ _ Hf) Ha). }
  eexists _, _. split; [exact (pathlib_facts.with_suffix_pp _ Hn)|].
  split; [exact Hload|]. split.
  - intros Hnorm. rewrite <- Hload. unfold load, as_Path.
    rewrite pathlib_facts.Path_str; [reflexivity|].
    exact (pathlib_facts.with_suffix_normal _ _ Hnorm Hn
             (pathlib_facts.with_suffix_pp _ Hn)).
  - destruct Hf as (_ & _ & Hnds & Hnr). unfold loaded_world, merged_world.
    simpl. rewrite Hnds, Hnr. simpl. auto.
Qed.

(** A path object and its printed form are the same argument: for a path
    as parsing leaves it (every path built from a string is one), [dump]
    and [load] do the same with the [Path] as with [str] of it. *)
Theorem path_argument_forms_agree (p : pathlib.PurePath) ic w :
  pathlib.normal p ->
  dump (ArgStr (pathlib.str p)) w = dump (ArgPath p) w
  /\ load (ArgStr (pathlib.str p)) ic w = load (ArgPath p) ic w.
Proof.
  intros Hp. unfold dump, load, as_Path.
  rewrite (pathlib_facts.Path_str _ Hp). split; reflexivity.
Qed.

End Properties.

(** * The properties on concrete runs *)

Import Demo.

(** The round trip on a computed report, loaded into a fresh target. *)
Lemma loads_dumps_roundtrip_witness :
  well_shaped (self computed_world)
  /\ version_marked (_description_set (self computed_world))
  /\ fst (dumps computed_world) = inr computed_bytes
  /\ pickle_loads computed_bytes = inr (snapshot (self computed_world) (config computed_world))
  /\ fresh_target fresh_world
  /\ exists w',
       loads computed_bytes false fresh_world = (inr tt, w')
       /\ _df_hash (self w') = df_hash (self computed_world)
       /\ _title (self w') = _title (self computed_world)
       /\ _description_set (self w') = _description_set (self computed_world)
       /\ _report (self w') = _report (self computed_world).
Proof.
  assert (H1 : well_shaped (self computed_world)) by (repeat split).
  assert (H2 : version_marked (_description_set (self computed_world)))
    by (right; eexists; reflexivity).
  assert (H3 : fst (dumps computed_world) = inr computed_bytes) by reflexivity.
  assert (H4 : pickle_loads computed_bytes
               = inr (snapshot (self computed_world) (config computed_world)))
    by (vm_compute; reflexivity).
  assert (H5 : fresh_target fresh_world) by (repeat split).
  repeat (split; [assumption|]).
  exact (loads_dumps_roundtrip computed_world fresh_world computed_bytes false
           H1 H2 H3 H4 H5).
Defined.

(** C1 fails on a report whose description set is a mapping without the
    package entry: the report has the shapes of the data model and is
    dumped, the codec gives the snapshot back, the target is fresh, but
    [loads] ends in a [KeyError] at the version lookup, after adopting
    the description set and before the assignments of [_df_hash] and
    [_title]; the target's hash is not the original's, so the round trip
    does not reproduce the report. *)
Theorem roundtrip_fails_on_unmarked_description_set :
  well_shaped (self unmarked_world)
  /\ fst (dumps unmarked_world) = inr unmarked_bytes
  /\ pickle_loads unmarked_bytes
     = inr (snapshot (self unmarked_world) (config unmarked_world))
  /\ fresh_target fresh_world
  /\ fst (loads unmarked_bytes false fresh_world) = inl (KeyError "package")
  /\ _df_hash (self (snd (loads unmarked_bytes false fresh_world)))
     <> df_hash (self unmarked_world)
  /\ ~ (exists w',
          loads unmarked_bytes false fresh_world = (inr tt, w')
          /\ _df_hash (self w') = df_hash (self unmarked_world)
          /\ _title (self w') = _title (self unmarked_world)
          /\ _description_set (self w') = _description_set (self unmarked_world)
          /\ _report (self w') = _report (self unmarked_world)).
Proof.
  split; [repeat split|]. split; [reflexivity|].
  split; [vm_compute; reflexivity|]. split; [repeat split|].
  split; [vm_compute; reflexivity|]. split; [vm_compute; discriminate|].
  intros (w' & Hl & _).
  assert (E : fst (loads unmarked_bytes false fresh_world) = inr tt)
    by (rewrite Hl; reflexivity).
  vm_compute in E. discriminate.
Qed.

(** The identity gate of C2: target hash ["abc"], loaded hash ["xyz"],
    a configured session. *)
Lemma loads_identity_gate_witness :
  decode_snapshot other_bytes = inr (PyStr "xyz", PyConfig [], PyNone, PyNone, PyNone)
  /\ PyStr "xyz" <> df_hash (self computed_world)
  /\ is_default (config computed_world) = false
  /\ loads other_bytes false computed_world
     = (inl (ValueError "DataFrame does not match with the current ProfileReport."),
        computed_world).
Proof.
  assert (H1 : decode_snapshot other_bytes
               = inr (PyStr "xyz", PyConfig [], PyNone, PyNone, PyNone))
    by (vm_compute; reflexivity).
  assert (H2 : @PyStr Config Root "xyz" <> df_hash (self computed_world))
    by discriminate.
  assert (H3 : is_default (config computed_world) = false) by reflexivity.
  repeat (split; [assumption|]).
  exact (loads_identity_gate other_bytes false computed_world _ _ _ _ _
           H1 eq_refl H2 (or_introl H3)).
Defined.

(** The shape check of C3 on a snapshot whose title is a number. *)
Lemma loads_rejects_bad_shape_witness :
  decode_snapshot misshapen_bytes
  = inr (PyStr "abc", PyConfig [], PyNone, PyNone, PyInt 3)
  /\ loads misshapen_bytes false computed_world
     = (inl (ValueError
               "Failed to load data: file may be damaged or from an incompatible version"),
        computed_world).
Proof.
  assert (H1 : decode_snapshot misshapen_bytes
               = inr (PyStr "abc", PyConfig [], PyNone, PyNone, PyInt 3))
    by (vm_compute; reflexivity).
  split; [assumption|].
  exact (proj2 (loads_rejects_bad_shape misshapen_bytes false computed_world
                  _ _ _ _ _ H1
                  (or_intror (or_intror (or_intror (or_intror eq_refl)))))).
Defined.

(** The decode failure of C4 on bytes the codec refuses. *)
Lemma loads_wraps_decode_failure_witness :
  pickle_loads garbage_bytes = inl (PyExn "UnpicklingError" "invalid load key")
  /\ loads garbage_bytes false computed_world
     = (inl (ValueError "Failed to load data: invalid load key"), computed_world).
Proof.
  assert (H1 : pickle_loads garbage_bytes
               = inl (PyExn "UnpicklingError" "invalid load key"))
    by (vm_compute; reflexivity).
  split; [assumption|].
  exact (loads_wraps_decode_failure garbage_bytes false computed_world _
           (or_introl H1)).
Defined.

(** The same for a decoded value that does not unpack into five names:
    a string of three characters. *)
Example loads_short_string :
  loads (encode (PyStr "abc")) false computed_world
  = (inl (ValueError
            "Failed to load data: not enough values to unpack (expected 5, got 3)"),
     computed_world).
Proof. vm_compute. reflexivity. Qed.

(** The merge of C5 into a target that has its description set but no
    report: the description set is kept with a warning, the report is
    adopted. *)
Lemma loads_merges_fields_independently_witness :
  exists res w' advisory,
    loads computed_bytes false described_world = (res, w')
    /\ _description_set (self w') = stamped "1.0.0"
    /\ _report (self w') = PyRoot "Overview"
    /\ warnings w'
       = (["The description set of current ProfileReport is not None. It won't be loaded."]
          ++ [] ++ advisory)%list
    /\ (advisory = [] \/ exists v, advisory = version_warning v)
    /\ (version_marked (stamped "2.8.0") -> res = inr tt).
Proof.
  assert (H1 : decode_snapshot computed_bytes
               = inr (PyStr "abc", PyConfig custom_config, stamped "2.8.0",
                      PyRoot "Overview", PyStr "Title"))
    by (vm_compute; reflexivity).
  exact (loads_merges_fields_independently computed_bytes false described_world
           _ _ _ _ _ H1 eq_refl eq_refl).
Defined.

(** C6 fails on a snapshot the shape check accepts: its description set
    is an empty mapping, the target is compatible, and [loads] ends in a
    [KeyError] at the version lookup without reaching the assignments of
    [_df_hash] and [_title]. *)
Theorem identity_update_lost_on_lookup_failure :
  decode_snapshot unmarked_bytes
  = inr (PyStr "abc", PyConfig custom_config, PyDict [], PyNone, PyStr "Title")
  /\ py_all (shape_checks (PyStr "abc") (PyConfig custom_config) (PyDict [])
               (@PyNone Config Root) (PyStr "Title")) = true
  /\ compatible (PyStr "abc") (self fresh_world) (config fresh_world) = true
  /\ fst (loads unmarked_bytes false fresh_world) = inl (KeyError "package")
  /\ _df_hash (self (snd (loads unmarked_bytes false fresh_world))) = PyNone
  /\ _title (self (snd (loads unmarked_bytes false fresh_world))) = PyNone
  /\ _description_set (self (snd (loads unmarked_bytes false fresh_world))) = PyDict [].
Proof. repeat split; vm_compute; reflexivity. Qed.

(** The coercion of C8 on ["report.json"], written in the working
    directory. *)
Lemma dump_writes_pp_witness :
  pathlib.name (as_Path (ArgStr "report.json")) <> ""
  /\ fst (dumps computed_world) = inr computed_bytes
  /\ os_write_bytes (fs computed_world)
       (pathlib.str (pathlib.with_pp (as_Path (ArgStr "report.json"))))
       computed_bytes = Written
  /\ exists q,
       pathlib.root q = ""
       /\ pathlib.parts q = ["report.pp"]
       /\ pathlib.stem (as_Path (ArgStr "report.json"))
          +:+ pathlib.suffix (as_Path (ArgStr "report.json"))
          = "report.json"
       /\ pathlib.suffix q = ".pp"
       /\ dump (ArgStr "report.json") computed_world
          = (inr tt, mkWorld computed_report custom_config []
                       (<[pathlib.str q := computed_bytes]> ∅)).
Proof.
  assert (H1 : pathlib.name (as_Path (ArgStr "report.json")) <> "")
    by discriminate.
  assert (H2 : fst (dumps computed_world) = inr computed_bytes) by reflexivity.
  assert (H3 : os_write_bytes (fs computed_world)
                 (pathlib.str (pathlib.with_pp (as_Path (ArgStr "report.json"))))
                 computed_bytes = Written) by reflexivity.
  repeat (split; [assumption|]).
  exact (dump_writes_pp (ArgStr "report.json") computed_world computed_bytes
           H1 H2 H3).
Defined.

(** C8 as stated fails on the empty path: [dumps] has bytes to write, yet
    [dump("")] raises and no file is written.  It also fails where the
    operating system refuses the write: into a directory that does not
    exist, [dump] raises the system's error and writes nothing. *)
Lemma dump_empty_name_counterexample :
  fst (dumps computed_world) = inr computed_bytes
  /\ dump (ArgStr "") computed_world
     = (inl (ValueError "PosixPath('.') has an empty name"), computed_world)
  /\ (forall path, fs (snd (dump (ArgStr "") computed_world)) !! path = None)
  /\ dump (ArgStr "missing/report.json") computed_world
     = (inl (PyExn "FileNotFoundError"
               "[Errno 2] No such file or directory: 'missing/report.pp'"),
        computed_world)
  /\ (forall path,
        fs (snd (dump (ArgStr "missing/report.json") computed_world)) !! path = None).
Proof.
  split; [reflexivity|]. split; [vm_compute; reflexivity|].
  split; [intros path; apply lookup_empty|].
  split; [vm_compute; reflexivity|].
  intros path. apply lookup_empty.
Qed.

(** The advisory of C9 on a snapshot written by version 1.0.0, read by
    2.8.0. *)
Lemma loads_version_advisory_witness :
  package_version (stamped "1.0.0") = inr (PyStr "1.0.0")
  /\ exists lc w',
       @PyConfig Config Root custom_config = PyConfig lc
       /\ loads older_bytes false fresh_world = (inr tt, w')
       /\ warnings w'
          = (warnings (merged_world fresh_world lc (stamped "1.0.0") (PyRoot "Old overview"))
             ++ (if py_ne_str (@PyStr Config Root "1.0.0") __version__
                 then ["The package version specified in the loaded data is not equal to the version installed. "
                       +:+ "Currently running on pandas-profiling " +:+ __version__
                       +:+ " , while loaded data is generated by pandas_profiling, "
                       +:+ py_str (PyStr "1.0.0") +:+ "."]
                 else []))%list
       /\ self w' = self (loaded_world fresh_world lc (PyStr "abc") (stamped "1.0.0")
                            (PyRoot "Old overview") (PyStr "Old title") [])
       /\ config w' = update (config fresh_world) lc
       /\ fs w' = fs fresh_world.
Proof.
  assert (H1 : decode_snapshot older_bytes
               = inr (PyStr "abc", PyConfig custom_config, stamped "1.0.0",
                      PyRoot "Old overview", PyStr "Old title"))
    by (vm_compute; reflexivity).
  assert (H2 : package_version (stamped "1.0.0") = inr (PyStr "1.0.0"))
    by reflexivity.
  split; [assumption|].
  refine (loads_version_advisory older_bytes false fresh_world _ _ _ _ _ _
            H1 eq_refl eq_refl _ H2).
  discriminate.
Defined.

(** C9 as stated fails: the target already holds a description set
    stamped 1.0.0, the snapshot brings none, so the merged description set
    is present and its version differs from the running one, but the only
    warning is the one for the kept field. *)
Lemma version_check_skips_kept_description_set :
  exists w',
    loads empty_bytes false described_world = (inr tt, w')
    /\ _description_set (self w') = stamped "1.0.0"
    /\ package_version (_description_set (self w')) = inr (PyStr "1.0.0")
    /\ py_ne_str (@PyStr Config Root "1.0.0") __version__ = true
    /\ warnings w' = [msg_description_set].
Proof. eexists. repeat split; vm_compute; reflexivity. Qed.

(** The escape of C10 on the snapshot with the empty description set. *)
Lemma version_lookup_escapes_witness :
  dict_get (@nil (string * value)) "package" = None
  /\ exists e lc w',
       loads unmarked_bytes false fresh_world = (inl e, w')
       /\ exn_class e = "KeyError"
       /\ exn_class e <> "ValueError"
       /\ @PyConfig Config Root custom_config = PyConfig lc
       /\ _description_set (self w') = PyDict []
       /\ _report (self w') = PyNone
       /\ config w' = update (config fresh_world) lc
       /\ _df_hash (self w') = PyNone
       /\ _title (self w') = PyNone.
Proof.
  assert (H1 : decode_snapshot unmarked_bytes
               = inr (PyStr "abc", PyConfig custom_config, PyDict [], PyNone,
                      PyStr "Title"))
    by (vm_compute; reflexivity).
  split; [reflexivity|].
  exact (version_lookup_escapes unmarked_bytes false fresh_world _ _ _ _ _
           H1 eq_refl eq_refl (or_introl eq_refl)).
Defined.

(** ** Runs of the further properties *)

(** Acceptance on the default target: the computed snapshot into a fresh
    world. *)
Lemma loads_accepts_iff_compatible_witness :
  version_marked (stamped "2.8.0")
  /\ (fst (loads computed_bytes false fresh_world) = inr tt
      <-> PyStr "abc" = df_hash (self fresh_world)
          \/ (is_default (config fresh_world) = true /\ df (self fresh_world) = None))
  /\ (fst (loads computed_bytes false fresh_world) = inr tt
      \/ loads computed_bytes false fresh_world
         = (inl (ValueError msg_mismatch), fresh_world)).
Proof.
  assert (H1 : decode_snapshot computed_bytes
               = inr (PyStr "abc", PyConfig custom_config, stamped "2.8.0",
                      PyRoot "Overview", PyStr "Title"))
    by (vm_compute; reflexivity).
  assert (H2 : version_marked (stamped "2.8.0")) by (right; eexists; reflexivity).
  split; [assumption|].
  exact (loads_accepts_iff_compatible computed_bytes false fresh_world
           _ _ _ _ _ H1 eq_refl H2).
Defined.

(** Exception safety on the two kinds of exception. *)
Lemma loads_exception_safety_witness :
  loads unmarked_bytes false fresh_world
  = (inl (KeyError "package"),
     merged_world fresh_world custom_config (PyDict []) PyNone)
  /\ ((exn_class (KeyError "package") = "ValueError"
       /\ merged_world fresh_world custom_config (PyDict []) PyNone = fresh_world)
      \/ exists h lc ds r t,
           decode_snapshot unmarked_bytes = inr (h, PyConfig lc, ds, r, t)
           /\ compatible h (self fresh_world) (config fresh_world) = true
           /\ ds <> PyNone
           /\ package_version ds = inl (KeyError "package")
           /\ merged_world fresh_world custom_config (PyDict []) PyNone
              = merged_world fresh_world lc ds r).
Proof.
  assert (H1 : loads unmarked_bytes false fresh_world
               = (inl (KeyError "package"),
                  merged_world fresh_world custom_config (PyDict []) PyNone))
    by (vm_compute; reflexivity).
  split; [assumption|].
  exact (loads_exception_safety unmarked_bytes false fresh_world _ _ H1).
Defined.

(** Arity on a list of four. *)
Lemma loads_wrong_arity_witness :
  pickle_loads short_bytes
  = inr (PyList [PyStr "abc"; PyConfig []; PyNone; PyNone])
  /\ exists msg,
       loads short_bytes false computed_world
       = (inl (ValueError ("Failed to load data: " +:+ msg)), computed_world)
       /\ (4 < 5 ->
           msg = "not enough values to unpack (expected 5, got " +:+ digit 4 +:+ ")")
       /\ (5 < 4 -> msg = "too many values to unpack (expected 5)").
Proof.
  assert (H1 : pickle_loads short_bytes
               = inr (PyList [PyStr "abc"; PyConfig []; PyNone; PyNone]))
    by (vm_compute; reflexivity).
  split; [assumption|].
  refine (loads_wrong_arity short_bytes false computed_world _ (or_introl H1) _).
  discriminate.
Defined.

(** Five characters. *)
Lemma loads_five_strings_witness :
  pickle_loads text_bytes = inr (PyStr "hello")
  /\ loads text_bytes false computed_world
     = (inl (ValueError msg_incompatible), computed_world).
Proof.
  assert (H1 : pickle_loads text_bytes = inr (PyStr "hello"))
    by (vm_compute; reflexivity).
  split; [assumption|].
  exact (loads_five_strings text_bytes false computed_world
           (or_introl (ex_intro _ "hello" (conj H1 eq_refl)))).
Defined.

(** A package entry that is a string. *)
Lemma version_lookup_type_error_witness :
  exists e lc,
    @PyConfig Config Root [] = PyConfig lc
    /\ loads unversioned_bytes false computed_world
       = (inl e, merged_world computed_world lc
                   (PyDict [("package", PyStr "2.8.0")]) PyNone)
    /\ exn_class e = "TypeError".
Proof.
  assert (H1 : decode_snapshot unversioned_bytes
               = inr (PyStr "abc", PyConfig [],
                      PyDict [("package", PyStr "2.8.0")], PyNone, PyNone))
    by (vm_compute; reflexivity).
  exact (version_lookup_type_error unversioned_bytes false computed_world
           _ _ _ _ _ _ H1 eq_refl eq_refl eq_refl eq_refl eq_refl eq_refl).
Defined.

(** Two loads into the pending target: the computed snapshot, then the
    older one. *)
Lemma second_load_keeps_fields_witness :
  fst (loads computed_bytes false pending_world) = inr tt
  /\ _description_set (self (snd (loads computed_bytes false pending_world))) <> PyNone
  /\ _report (self (snd (loads computed_bytes false pending_world))) <> PyNone
  /\ _description_set
       (self (snd (loads older_bytes false (snd (loads computed_bytes false pending_world)))))
     = _description_set (self (snd (loads computed_bytes false pending_world)))
  /\ _report
       (self (snd (loads older_bytes false (snd (loads computed_bytes false pending_world)))))
     = _report (self (snd (loads computed_bytes false pending_world)))
  /\ exists rest,
       warnings (snd (loads older_bytes false (snd (loads computed_bytes false pending_world))))
       = (warnings (snd (loads computed_bytes false pending_world))
          ++ [msg_description_set; msg_report] ++ rest)%list.
Proof.
  assert (H1 : decode_snapshot computed_bytes
               = inr (PyStr "abc", PyConfig custom_config, stamped "2.8.0",
                      PyRoot "Overview", PyStr "Title"))
    by (vm_compute; reflexivity).
  assert (H2 : decode_snapshot older_bytes
               = inr (PyStr "abc", PyConfig custom_config, stamped "1.0.0",
                      PyRoot "Old overview", PyStr "Old title"))
    by (vm_compute; reflexivity).
  assert (Hc : compatible (PyStr "abc")
                 (self (snd (loads computed_bytes false pending_world)))
                 (config (snd (loads computed_bytes false pending_world))) = true)
    by (vm_compute; reflexivity).
  refine (second_load_keeps_fields computed_bytes older_bytes false false
            pending_world _ _ _ _ _ _ _ _ _ _ H1 eq_refl eq_refl _ _ _ H2 eq_refl Hc).
  - discriminate.
  - discriminate.
  - eexists. reflexivity.
Defined.

(** The empty path. *)
Lemma dump_empty_name_witness :
  pathlib.name (as_Path (ArgStr "")) = ""
  /\ dump (ArgStr "") computed_world
     = (inl (ValueError ("PosixPath('" +:+ pathlib.str (as_Path (ArgStr ""))
                         +:+ "') has an empty name")), computed_world).
Proof.
  assert (H1 : pathlib.name (as_Path (ArgStr "")) = "") by reflexivity.
  split; [assumption|].
  exact (dump_empty_name (ArgStr "") computed_world H1).
Defined.

(** Writing ["out/report.json"], where the directory [out] exists, and
    reading the written path. *)
Lemma load_reads_what_dump_wrote_witness :
  fst (dump (ArgStr "out/report.json") computed_world) = inr tt
  /\ exists q data,
       pathlib.with_suffix (as_Path (ArgStr "out/report.json")) ".pp" = inr q
       /\ fst (dumps computed_world) = inr data
       /\ load (ArgPath q) false (snd (dump (ArgStr "out/report.json") computed_world))
          = loads data false
              (snd (dump (ArgStr "out/report.json") computed_world)).
Proof.
  assert (H1 : fst (dump (ArgStr "out/report.json") computed_world) = inr tt)
    by (vm_compute; reflexivity).
  split; [assumption|].
  exact (load_reads_what_dump_wrote (ArgStr "out/report.json") computed_world
           false H1).
Defined.

(** The same argument on both sides: with [.pp] the load finds the dump,
    with [.json] it does not. *)
Lemma dump_then_load_pp_witness :
  pathlib.suffix (as_Path (ArgStr "out/report.pp")) = ".pp"
  /\ fst (dump (ArgStr "out/report.pp") computed_world) = inr tt
  /\ exists data,
       fst (dumps computed_world) = inr data
       /\ load (ArgStr "out/report.pp") false
            (snd (dump (ArgStr "out/report.pp") computed_world))
          = loads data false
              (snd (dump (ArgStr "out/report.pp") computed_world)).
Proof.
  assert (H1 : pathlib.suffix (as_Path (ArgStr "out/report.pp")) = ".pp")
    by reflexivity.
  assert (H2 : fst (dump (ArgStr "out/report.pp") computed_world) = inr tt)
    by (vm_compute; reflexivity).
  repeat (split; [assumption|]).
  exact (dump_then_load_pp (ArgStr "out/report.pp") computed_world false H1 H2).
Defined.


(** The computed report, through the file ["out/report.pp"], into a
    fresh process. *)
Lemma dump_load_roundtrip_witness :
  fst (dump (ArgStr "out/report.json") computed_world) = inr tt
  /\ fresh_target receiving_world
  /\ exists q w',
       pathlib.with_suffix (as_Path (ArgStr "out/report.json")) ".pp" = inr q
       /\ load (ArgPath q) false receiving_world = (inr tt, w')
       /\ (pathlib.normal (as_Path (ArgStr "out/report.json")) ->
           load (ArgStr (pathlib.str q)) false receiving_world = (inr tt, w'))
       /\ _df_hash (self w') = df_hash (self computed_world)
       /\ _title (self w') = _title (self computed_world)
       /\ _description_set (self w') = _description_set (self computed_world)
       /\ _report (self w') = _report (self computed_world).
Proof.
  assert (H0 : fst (dump (ArgStr "out/report.json") computed_world) = inr tt)
    by (vm_compute; reflexivity).
  assert (H1 : well_shaped (self computed_world)) by (repeat split).
  assert (H2 : version_marked (_description_set (self computed_world)))
    by (right; eexists; reflexivity).
  assert (H4 : pickle_loads computed_bytes
               = inr (snapshot (self computed_world) (config computed_world)))
    by (vm_compute; reflexivity).
  assert (H5 : fresh_target receiving_world) by (repeat split).
  repeat (split; [assumption|]).
  exact (dump_load_roundtrip (ArgStr "out/report.json") computed_world
           receiving_world computed_bytes false H0 H1 H2 eq_refl H4 H5 eq_refl).
Defined.

(** The parsed path of ["/srv//reports/./titanic.pp"] and its printed
    form. *)
Lemma path_argument_forms_agree_witness :
  pathlib.normal (pathlib.Path "/srv//reports/./titanic.pp")
  /\ dump (ArgStr (pathlib.str (pathlib.Path "/srv//reports/./titanic.pp")))
       computed_world
     = dump (ArgPath (pathlib.Path "/srv//reports/./titanic.pp")) computed_world
  /\ load (ArgStr (pathlib.str (pathlib.Path "/srv//reports/./titanic.pp"))) false
       computed_world
     = load (ArgPath (pathlib.Path "/srv//reports/./titanic.pp")) false computed_world.
Proof.
  assert (H1 : pathlib.normal (pathlib.Path "/srv//reports/./titanic.pp")).
  { split; [right; left; reflexivity|].
    change (pathlib.parts (pathlib.Path "/srv//reports/./titanic.pp"))
      with ["srv"; "reports"; "titanic.pp"].
    repeat (constructor; [repeat split; discriminate|]). constructor. }
  split; [assumption|].
  exact (path_argument_forms_agree _ false computed_world H1).
Defined.
